(** * kombu.utils.json: the JSON codec extension layer

    A shallow embedding of [kombu/utils/json.py]: the encoder fallback
    ([JSONEncoder.default]), [dumps], the decode hook ([object_hook]),
    [loads] with its input normalisation, and the type registry
    ([register_type], [_encoders], [_decoders]).

    Python text ([str]) is a sequence of Unicode code points and a byte
    string is a sequence of octets; both are lists of integers here.  The
    standard-library pieces the module calls (UTF-8 codec, [isoformat],
    [str] of a decimal or UUID, the [json] writer and parser) are modelled
    next to the code that uses them. *)

From Stdlib Require Import ZArith String Ascii List Lia Bool.
From Stdlib Require Import DecimalString DecimalZ DecimalN.
From stdpp Require Import base gmap list.
Import ListNotations.
Local Open Scope Z_scope.
Set Warnings "-register-all".

(** ** Text and bytes *)

(** A Python [str]: the list of its code points. *)
Definition str := list Z.

(** A Python [bytes] object: the list of its octets, each in [0, 256). *)
Definition bytes := list Z.

(** The code point of an ASCII character. *)
Definition ch (a : ascii) : Z := Z.of_N (N_of_ascii a).

(** An ASCII literal as Python text. *)
Definition T (s : string) : str := map ch (list_ascii_of_string s).

(** An ASCII literal in which the apostrophe stands for the double quote
    (code point 34): JSON documents are written this way below. *)
Definition Q (s : string) : str :=
  map (fun c => if c =? 39 then 34 else c) (T s).

Definition str_eqb (a b : str) : bool := bool_decide (a = b).

(** [r.endswith(suffix)] *)
Definition endswith (r suffix : str) : bool :=
  (length suffix <=? length r)%nat
  && str_eqb (drop (length r - length suffix) r) suffix.

(** [r[:-n]] for a positive n: everything but the last n code points. *)
Definition slice_to_minus (r : str) (n : nat) : str :=
  take (length r - n) r.

(** ** The UTF-8 codec ([str.encode("utf-8")], [bytes.decode("utf-8")]) *)

Module UTF8.

(** The UTF-8 form of one code point; surrogates (U+D800..U+DFFF) and
    anything outside U+0000..U+10FFFF have none (UnicodeEncodeError). *)
Definition encode_cp (c : Z) : option bytes :=
  if c <? 0 then None
  else if c <? 0x80 then Some [c]
  else if c <? 0x800 then Some [0xC0 + c / 64; 0x80 + c mod 64]
  else if c <? 0x10000 then
    if (0xD800 <=? c) && (c <? 0xE000) then None
    else Some [0xE0 + c / 4096; 0x80 + (c / 64) mod 64; 0x80 + c mod 64]
  else if c <? 0x110000 then
    Some [0xF0 + c / 262144; 0x80 + (c / 4096) mod 64;
          0x80 + (c / 64) mod 64; 0x80 + c mod 64]
  else None.

Fixpoint encode (s : str) : option bytes :=
  match s with
  | [] => Some []
  | c :: s' =>
      match encode_cp c, encode s' with
      | Some b, Some bs => Some (b ++ bs)
      | _, _ => None
      end
  end.

(** A continuation byte, 10xxxxxx. *)
Definition is_cont (b : Z) : bool := (0x80 <=? b) && (b <? 0xC0).

(** Strict decoding: overlong forms, surrogates, code points above
    U+10FFFF, stray continuation bytes and truncated sequences are all
    rejected ([None] stands for UnicodeDecodeError). *)
Fixpoint decode (bs : bytes) : option str :=
  match bs with
  | [] => Some []
  | b0 :: r0 =>
      if (0 <=? b0) && (b0 <? 0x80) then
        cons b0 <$> decode r0
      else if (0xC2 <=? b0) && (b0 <? 0xE0) then
        match r0 with
        | b1 :: r1 =>
            if is_cont b1
            then cons ((b0 - 0xC0) * 64 + (b1 - 0x80)) <$> decode r1
            else None
        | _ => None
        end
      else if (0xE0 <=? b0) && (b0 <? 0xF0) then
        match r0 with
        | b1 :: b2 :: r2 =>
            let c := (b0 - 0xE0) * 4096 + (b1 - 0x80) * 64 + (b2 - 0x80) in
            if is_cont b1 && is_cont b2 && (0x800 <=? c)
               && negb ((0xD800 <=? c) && (c <? 0xE000))
            then cons c <$> decode r2
            else None
        | _ => None
        end
      else if (0xF0 <=? b0) && (b0 <? 0xF8) then
        match r0 with
        | b1 :: b2 :: b3 :: r3 =>
            let c := (b0 - 0xF0) * 262144 + (b1 - 0x80) * 4096
                     + (b2 - 0x80) * 64 + (b3 - 0x80) in
            if is_cont b1 && is_cont b2 && is_cont b3
               && (0x10000 <=? c) && (c <? 0x110000)
            then cons c <$> decode r3
            else None
        | _ => None
        end
      else None
  end.

End UTF8.

(** ** Python values *)

(** [datetime.date] *)
Record date := mk_date { year : Z; month : Z; day : Z }.

(** [datetime.time]; [t_utcoffset] is what [utcoffset()] returns, in
    microseconds ([None] for a naive time). *)
Record time := mk_time {
  t_hour : Z; t_minute : Z; t_second : Z; t_microsecond : Z;
  t_utcoffset : option Z }.

(** [datetime.datetime]; [dt_utcoffset] as for [time]. *)
Record datetime := mk_datetime {
  dt_year : Z; dt_month : Z; dt_day : Z;
  dt_hour : Z; dt_minute : Z; dt_second : Z; dt_microsecond : Z;
  dt_utcoffset : option Z }.

(** [decimal.Decimal]: sign, coefficient and exponent of a finite number,
    or one of the special values. *)
Inductive decimal :=
  | Finite (sign : bool) (coeff : N) (exp : Z)
  | Infinity (sign : bool)
  | NaN (sign : bool) (signaling : bool) (payload : N).

(** [uuid.UUID]: its 128-bit integer. *)
Record uuid := mk_uuid { uuid_int : Z }.

(** What an object that the JSON writer does not serialise natively is an
    instance of.  [PDatetime] covers [datetime.datetime] and its subclasses,
    [PDate] the dates that are not datetimes, [PPromise] Django's lazy
    strings (with the text they evaluate to), [POther] an instance of a
    class [cls] related to none of these, hashed and compared by identity
    as [object] does, [PUnhashable] an instance of such a class that has
    no [__hash__] (a set, or an object of a class that defines [__eq__]
    alone). *)
Inductive payload :=
  | PDatetime (d : datetime)
  | PDate (d : date)
  | PTime (t : time)
  | PDecimal (d : decimal)
  | PUUID (u : uuid)
  | PPromise (s : str)
  | POther (cls : string)
  | PUnhashable (cls : string).

(** Python values.  A [VObject] carries what calling its [__json__] method
    returns when it has one; the other values have no such attribute.
    Dictionaries keep insertion order and have text keys, as every
    dictionary built by the JSON parser has.  [VType] is the builtin
    [type]. *)
Inductive value :=
  | VNone
  | VBool (b : bool)
  | VInt (n : Z)
  | VStr (s : str)
  | VList (l : list value)
  | VDict (d : list (str * value))
  | VBytes (b : bytes)
  | VType
  | VObject (p : payload) (reducer : option value).

Abbreviation dict := (list (str * value)).

(** Exceptions. [Unmodelled] marks standard-library behaviour that is left
    outside this development. *)
Inductive exn :=
  | TypeError (msg : string)
  | ValueError (args : list value)
  | AttributeError (msg : string)
  | KeyError (key : str)
  | JSONDecodeError (msg : string)
  | UnicodeDecodeError
  | UnicodeEncodeError
  | InvalidOperation
  | RecursionError
  | Unmodelled (what : string).

Inductive result (A : Type) :=
  | Ok (a : A)
  | Raise (e : exn).
Arguments Ok {A} a.
Arguments Raise {A} e.

Definition bind {A B} (c : result A) (k : A -> result B) : result B :=
  match c with
  | Ok a => k a
  | Raise e => Raise e
  end.

Notation "x <- c ;; k" := (bind c (fun x => k))
  (at level 100, c at next level, right associativity).

(** [None] of a partial library function becomes the exception [e]. *)
Definition or_raise {A} (e : exn) (o : option A) : result A :=
  match o with
  | Some a => Ok a
  | None => Raise e
  end.

Fixpoint mapM {A B} (f : A -> result B) (l : list A) : result (list B) :=
  match l with
  | [] => Ok []
  | a :: l' => b <- f a ;; bs <- mapM f l' ;; Ok (b :: bs)
  end.

(** [sep.join(items)] *)
Fixpoint join (sep : str) (items : list str) : str :=
  match items with
  | [] => []
  | [x] => x
  | x :: rest => x ++ sep ++ join sep rest
  end.

(** *** Dictionaries *)

(** [d.get(k)] *)
Fixpoint dict_get (d : dict) (k : str) : option value :=
  match d with
  | [] => None
  | (k', v) :: d' => if str_eqb k' k then Some v else dict_get d' k
  end.

(** [d[k] = v]: an existing key keeps its position. *)
Fixpoint dict_set (k : str) (v : value) (d : dict) : dict :=
  match d with
  | [] => [(k, v)]
  | (k', v') :: d' =>
      if str_eqb k' k then (k', v) :: d' else (k', v') :: dict_set k v d'
  end.

(** [dict(pairs)] *)
Definition dict_of_pairs (pairs : list (str * value)) : dict :=
  fold_left (fun d kv => dict_set kv.1 kv.2 d) pairs [].

Definition mem (k : str) (ks : list str) : bool := existsb (str_eqb k) ks.

(** [d.keys() == set(ks)] *)
Definition keys_equal (d : dict) (ks : list str) : bool :=
  forallb (fun k => mem k ks) d.*1 && forallb (fun k => mem k d.*1) ks.

(** ** Standard-library text conversions used by the encoder *)

(** [str(n)] / [repr(n)] of an integer. *)
Definition int_repr (n : Z) : str := T (NilZero.string_of_int (Z.to_int n)).

(** [s.zfill(w)] for a digit string [s]. *)
Definition zfill (w : nat) (s : str) : str := replicate (w - length s) 48 ++ s.

(** ["%0wd" % n] *)
Definition fmt0 (w : nat) (n : Z) : str :=
  if n <? 0 then 45 :: zfill (w - 1) (int_repr (- n)) else zfill w (int_repr n).

(** [date.isoformat()]: YYYY-MM-DD. *)
Definition date_isoformat (d : date) : str :=
  fmt0 4 (year d) ++ T "-" ++ fmt0 2 (month d) ++ T "-" ++ fmt0 2 (day d).

(** [datetime._format_time] with [timespec='auto']. *)
Definition format_time (hh mm ss us : Z) : str :=
  fmt0 2 hh ++ T ":" ++ fmt0 2 mm ++ T ":" ++ fmt0 2 ss
  ++ (if us =? 0 then [] else T "." ++ fmt0 6 us).

(** [datetime._format_offset]: the UTC offset as +HH:MM[:SS[.ffffff]]. *)
Definition format_offset (off : option Z) : str :=
  match off with
  | None => []
  | Some off =>
      let sign := if off <? 0 then T "-" else T "+" in
      let off := Z.abs off in
      let hh := off / 3600000000 in
      let mm := (off mod 3600000000) / 60000000 in
      let ss := (off mod 3600000000) mod 60000000 in
      sign ++ fmt0 2 hh ++ T ":" ++ fmt0 2 mm
      ++ (if ss =? 0 then []
          else T ":" ++ fmt0 2 (ss / 1000000)
               ++ (if ss mod 1000000 =? 0 then []
                   else T "." ++ fmt0 6 (ss mod 1000000)))
  end.

(** [time.isoformat()] *)
Definition time_isoformat (t : time) : str :=
  format_time (t_hour t) (t_minute t) (t_second t) (t_microsecond t)
  ++ format_offset (t_utcoffset t).

(** [datetime.isoformat()] with the default separator. *)
Definition datetime_isoformat (d : datetime) : str :=
  fmt0 4 (dt_year d) ++ T "-" ++ fmt0 2 (dt_month d) ++ T "-"
  ++ fmt0 2 (dt_day d) ++ T "T"
  ++ format_time (dt_hour d) (dt_minute d) (dt_second d) (dt_microsecond d)
  ++ format_offset (dt_utcoffset d).

(** [datetime.date()] *)
Definition datetime_date (d : datetime) : date :=
  mk_date (dt_year d) (dt_month d) (dt_day d).

(** The decimal digits of a coefficient, the [_int] of a [Decimal]. *)
Definition digits (n : N) : str := T (NilZero.string_of_uint (N.to_uint n)).

(** [Decimal.__str__]: scientific notation only when the exponent is
    positive or the number has more than six leading zeros. *)
Definition decimal_str (d : decimal) : str :=
  match d with
  | Infinity s => (if s then T "-" else []) ++ T "Infinity"
  | NaN s signaling p =>
      (if s then T "-" else []) ++ (if signaling then T "sNaN" else T "NaN")
      ++ (if (p =? 0)%N then [] else digits p)
  | Finite s c e =>
      let sign := if s then T "-" else [] in
      let int_ := digits c in
      let len := Z.of_nat (length int_) in
      let leftdigits := e + len in
      let dotplace := if (e <=? 0) && (-6 <? leftdigits) then leftdigits else 1 in
      let intpart :=
        if dotplace <=? 0 then T "0"
        else if len <=? dotplace then int_ ++ replicate (Z.to_nat (dotplace - len)) 48
        else take (Z.to_nat dotplace) int_ in
      let fracpart :=
        if dotplace <=? 0 then T "." ++ replicate (Z.to_nat (- dotplace)) 48 ++ int_
        else if len <=? dotplace then []
        else T "." ++ drop (Z.to_nat dotplace) int_ in
      let exp :=
        if leftdigits =? dotplace then []
        else T "E" ++ (if 0 <=? leftdigits - dotplace then T "+" else [])
             ++ int_repr (leftdigits - dotplace) in
      sign ++ intpart ++ fracpart ++ exp
  end.

(** One lower-case hexadecimal digit. *)
Definition hex_digit (n : Z) : Z := if n <? 10 then 48 + n else 87 + n.

(** ["%0wx" % v] for a non-negative [v] below [16^w]. *)
Fixpoint hexn (w : nat) (v : Z) : str :=
  match w with
  | O => []
  | S w' => hexn w' (v / 16) ++ [hex_digit (v mod 16)]
  end.

(** [UUID.hex] *)
Definition uuid_hex (u : uuid) : str := hexn 32 (uuid_int u).

(** [str(UUID)]: the hex digits in groups of 8-4-4-4-12. *)
Definition uuid_str (u : uuid) : str :=
  let hex := uuid_hex u in
  take 8 hex ++ T "-" ++ take 4 (drop 8 hex) ++ T "-"
  ++ take 4 (drop 12 hex) ++ T "-" ++ take 4 (drop 16 hex) ++ T "-"
  ++ drop 20 hex.

(** ** The encoder: [JSONEncoder.default] *)

(** [getattr(o, '__json__', None)]: the bound method, here the value that
    calling it returns. *)
Definition getattr_json (o : value) : option value :=
  match o with
  | VObject _ reducer => reducer
  | _ => None
  end.

(** [isinstance(o, dates)] with [dates = (datetime.datetime, datetime.date)]:
    the date ([inl]) or datetime ([inr]) that [o] is. *)
Definition isinstance_dates (o : value) : option (date + datetime) :=
  match o with
  | VObject (PDate d) _ => Some (inl d)
  | VObject (PDatetime d) _ => Some (inr d)
  | _ => None
  end.

(** [isinstance(o, times)] with [times = (datetime.time,)]. *)
Definition isinstance_times (o : value) : option time :=
  match o with
  | VObject (PTime t) _ => Some t
  | _ => None
  end.

(** [isinstance(o, textual)] with
    [textual = (decimal.Decimal, uuid.UUID, DjangoPromise)], together with
    [text_t(o)], the [str] of such a value. *)
Definition isinstance_textual (o : value) : option str :=
  match o with
  | VObject (PDecimal d) _ => Some (decimal_str d)
  | VObject (PUUID u) _ => Some (uuid_str u)
  | VObject (PPromise s) _ => Some s
  | _ => None
  end.

(** [o.__class__.__name__] *)
Definition class_name (o : value) : string :=
  match o with
  | VNone => "NoneType"
  | VBool _ => "bool"
  | VInt _ => "int"
  | VStr _ => "str"
  | VList _ => "list"
  | VDict _ => "dict"
  | VBytes _ => "bytes"
  | VType => "type"
  | VObject (PDatetime _) _ => "datetime"
  | VObject (PDate _) _ => "date"
  | VObject (PTime _) _ => "time"
  | VObject (PDecimal _) _ => "Decimal"
  | VObject (PUUID _) _ => "UUID"
  | VObject (PPromise _) _ => "Promise"
  | VObject (POther cls) _ => cls
  | VObject (PUnhashable cls) _ => cls
  end.

(** [json.JSONEncoder.default], reached through [super().default(o)]: it
    always raises. *)
Definition super_default (o : value) : result value :=
  Raise (TypeError ("Object of type " ++ class_name o
                    ++ " is not JSON serializable")%string).

Definition JSONEncoder_default (o : value) : result value :=
  let reducer := getattr_json o in
  match reducer with
  | Some r => Ok r
  | None =>
      match isinstance_dates o with
      | Some dd =>
          let o :=
            match dd with
            | inl d => mk_datetime (year d) (month d) (day d) 0 0 0 0 None
            | inr dt => dt
            end in
          let r := datetime_isoformat o in
          let r := if endswith r (T "+00:00")
                   then slice_to_minus r 6 ++ T "Z" else r in
          Ok (VStr r)
      | None =>
          match isinstance_times o with
          | Some t => Ok (VStr (time_isoformat t))
          | None =>
              match isinstance_textual o with
              | Some text => Ok (VStr text)
              | None => super_default o
              end
          end
      end
  end.

(** ** The JSON writer ([json.dumps] with its default options) *)

(** The replacement of one code point by [encode_basestring_ascii]. *)
Definition escape_cp (c : Z) : str :=
  if c =? 34 then [92; 34]
  else if c =? 92 then [92; 92]
  else if c =? 10 then T "\n"
  else if c =? 13 then T "\r"
  else if c =? 9 then T "\t"
  else if c =? 8 then T "\b"
  else if c =? 12 then T "\f"
  else if (32 <=? c) && (c <=? 126) then [c]
  else if c <? 0x10000 then T "\u" ++ hexn 4 c
  else
    let n := c - 0x10000 in
    let s1 := Z.lor 0xD800 (Z.land (Z.shiftr n 10) 0x3FF) in
    let s2 := Z.lor 0xDC00 (Z.land n 0x3FF) in
    T "\u" ++ hexn 4 s1 ++ T "\u" ++ hexn 4 s2.

(** [json.encoder.encode_basestring_ascii] *)
Definition encode_basestring_ascii (s : str) : str :=
  [34] ++ flat_map escape_cp s ++ [34].

(** The interpreter's recursion limit. *)
Definition recursion_limit : nat := 1000.

(** [JSONEncoder.iterencode], joined: native values are written directly,
    anything else goes through [default] and the result is written in its
    place. *)
Fixpoint iterencode (default : value -> result value)
    (fuel : nat) (o : value) : result str :=
  match fuel with
  | O => Raise RecursionError
  | S fuel =>
      match o with
      | VStr s => Ok (encode_basestring_ascii s)
      | VNone => Ok (T "null")
      | VBool true => Ok (T "true")
      | VBool false => Ok (T "false")
      | VInt n => Ok (int_repr n)
      | VList l =>
          items <- mapM (iterencode default fuel) l ;;
          Ok (T "[" ++ join (T ", ") items ++ T "]")
      | VDict d =>
          items <- mapM (fun kv =>
                     v <- iterencode default fuel kv.2 ;;
                     Ok (encode_basestring_ascii kv.1 ++ T ": " ++ v)) d ;;
          Ok (T "{" ++ join (T ", ") items ++ T "}")
      | _ =>
          o' <- default o ;;
          iterencode default fuel o'
      end
  end.

(** [json.dumps(o, cls=...)], the encoder class given by its [default]. *)
Definition json_dumps (default : value -> result value) (o : value)
    : result str :=
  iterencode default recursion_limit o.

(** [dumps(s)]: [cls] defaults to [_default_encoder], which is
    [JSONEncoder]; no extra keyword arguments. *)
Definition dumps (s : value) : result str :=
  json_dumps JSONEncoder_default s.

(** ** Standard-library constructors used by the default decoders *)

Definition is_digit (c : Z) : bool := (48 <=? c) && (c <=? 57).

(** The longest prefix of [s] satisfying [p], and what follows it. *)
Fixpoint span (p : Z -> bool) (s : str) : str * str :=
  match s with
  | c :: s' =>
      if p c then let '(a, b) := span p s' in (c :: a, b) else ([], s)
  | [] => ([], [])
  end.

(** [int(ds)] for a string of ASCII digits ([0] for the empty string). *)
Definition int_of_digits (ds : str) : Z :=
  fold_left (fun acc c => 10 * acc + (c - 48)) ds 0.

(** ASCII lower case. *)
Definition lower (c : Z) : Z := if (65 <=? c) && (c <=? 90) then c + 32 else c.

(** Printable ASCII other than the space and the underscore: on such text
    [Decimal] neither strips anything nor removes a digit separator, and
    case folding is the ASCII one. *)
Definition is_plain_token (s : str) : bool :=
  forallb (fun c => (33 <=? c) && (c <=? 126) && negb (c =? 95)) s.

(** [decimal.Decimal(s)] for text [s]: the numeric-string grammar
    [sign? (digits [. digits]? | . digits) (E sign? digits)?], the
    infinities and the NaNs with their diagnostic digits. *)
Definition decimal_of_str (s : str) : result decimal :=
  let '(sign, s1) :=
    match s with
    | 45 :: r => (true, r)
    | 43 :: r => (false, r)
    | _ => (false, s)
    end in
  let '(intpart, s2) := span is_digit s1 in
  let '(fracpart, s3) :=
    match s2 with
    | 46 :: r => span is_digit r
    | _ => ([], s2)
    end in
  let number (e : Z) :=
    Ok (Finite sign (Z.to_N (int_of_digits (intpart ++ fracpart)))
               (e - Z.of_nat (length fracpart))) in
  let invalid :=
    if is_plain_token s then Raise InvalidOperation
    else Raise (Unmodelled "Decimal of text with blanks, separators or non-ASCII") in
  if negb ((length intpart + length fracpart =? 0)%nat) then
    match s3 with
    | [] => number 0
    | e :: r =>
        if lower e =? ch "e" then
          let '(esign, r1) :=
            match r with
            | 45 :: r' => (true, r')
            | 43 :: r' => (false, r')
            | _ => (false, r)
            end in
          let '(ds, r2) := span is_digit r1 in
          match ds, r2 with
          | _ :: _, [] =>
              number (if esign then - int_of_digits ds else int_of_digits ds)
          | _, _ => invalid
          end
        else invalid
    end
  else
    let l := map lower s1 in
    if str_eqb l (T "inf") || str_eqb l (T "infinity") then Ok (Infinity sign)
    else
      let '(signaling, l1) :=
        match l with
        | 115 :: r => (true, r)
        | _ => (false, l)
        end in
      if str_eqb (take 3 l1) (T "nan") && forallb is_digit (drop 3 l1)
      then Ok (NaN sign signaling (Z.to_N (int_of_digits (drop 3 l1))))
      else invalid.

(** [decimal.Decimal(o)] on a decoded payload. *)
Definition Decimal (o : value) : result value :=
  match o with
  | VStr s => d <- decimal_of_str s ;; Ok (VObject (PDecimal d) None)
  | VInt n => Ok (VObject (PDecimal (Finite (n <? 0) (Z.to_N (Z.abs n)) 0)) None)
  | VBool b => Ok (VObject (PDecimal (Finite false (if b then 1 else 0)%N 0)) None)
  | VList _ => Raise (Unmodelled "Decimal of a sequence")
  | VObject (PDecimal d) _ => Ok (VObject (PDecimal d) None)
  | _ => Raise (TypeError ("Cannot convert " ++ class_name o ++ " to Decimal")%string)
  end.

(** The value of one hexadecimal digit. *)
Definition hex_value (c : Z) : option Z :=
  if (48 <=? c) && (c <=? 57) then Some (c - 48)
  else if (97 <=? c) && (c <=? 102) then Some (c - 87)
  else if (65 <=? c) && (c <=? 70) then Some (c - 55)
  else None.

(** [int(s, 16)] for a string of hexadecimal digits. *)
Fixpoint int_of_hex (acc : Z) (s : str) : option Z :=
  match s with
  | [] => Some acc
  | c :: s' =>
      match hex_value c with
      | Some v => int_of_hex (16 * acc + v) s'
      | None => None
      end
  end.

(** [uuid.UUID] called with the entries of [o] as keyword arguments, for
    the payload [{"hex": text}] of 32 hexadecimal digits, hyphens allowed. *)
Definition UUID (o : value) : result value :=
  match o with
  | VDict [(k, VStr hex)] =>
      if str_eqb k (T "hex") then
        if forallb (fun c => bool_decide (is_Some (hex_value c)) || (c =? 45)) hex then
          let hex := filter (fun c => c <> 45) hex in
          if (length hex =? 32)%nat then
            match int_of_hex 0 hex with
            | Some n => Ok (VObject (PUUID (mk_uuid n)) None)
            | None => Raise (ValueError [VStr (T "badly formed hexadecimal UUID string")])
            end
          else Raise (ValueError [VStr (T "badly formed hexadecimal UUID string")])
        else Raise (Unmodelled "UUID of text with other characters")
      else Raise (Unmodelled "UUID from other fields")
  | VDict _ => Raise (Unmodelled "UUID from other fields")
  | _ => Raise (TypeError "argument after ** must be a mapping")
  end.

(** ** The type registry *)

(** A key of [_encoders]: the object passed as [t], a class or (as on the
    first registration below) a module. *)
Inductive pykey :=
  | Module_ (name : string)
  | Class_ (qualname : string).

#[global] Instance pykey_eq_dec : EqDecision pykey.
Proof. solve_decision. Defined.

#[global] Instance pykey_countable : Countable pykey.
Proof.
  refine (inj_countable'
    (fun k => match k with Module_ n => inl n | Class_ n => inr n end)
    (fun s => match s with inl n => Module_ n | inr n => Class_ n end) _).
  by intros [].
Defined.

(** The class an object is an instance of, as a registry key. *)
Definition type_of (o : value) : pykey :=
  match o with
  | VObject (PDatetime _) _ => Class_ "datetime.datetime"
  | VObject (PDate _) _ => Class_ "datetime.date"
  | VObject (PTime _) _ => Class_ "datetime.time"
  | VObject (PDecimal _) _ => Class_ "decimal.Decimal"
  | VObject (PUUID _) _ => Class_ "uuid.UUID"
  | VObject (PPromise _) _ => Class_ "django.utils.functional.Promise"
  | _ => Class_ (class_name o)
  end.

Definition EncoderT := value -> result value.
Definition DecoderT := value -> result value.

(** The two module-level tables. *)
Record registry := mk_registry {
  _encoders : gmap pykey (str * EncoderT);
  _decoders : gmap str DecoderT }.

(** [register_type(t, marker, encoder, decoder)] *)
Definition register_type (t : pykey) (marker : str)
    (encoder : EncoderT) (decoder : DecoderT) (st : registry) : registry :=
  {| _encoders := <[t := (marker, encoder)]> (_encoders st);
     _decoders := <[marker := decoder]> (_decoders st) |}.

(** Standard-library parsers that the default decoders call and that are
    left abstract. *)
Class ExternalCodecs := {
  datetime_fromisoformat : str -> result datetime;
  time_fromisoformat : str -> result time;
  b64decode : bytes -> result bytes }.

(** [o.encode("utf-8")] *)
Definition encode_utf8 (o : value) : result bytes :=
  match o with
  | VStr s => or_raise UnicodeEncodeError (UTF8.encode s)
  | _ => Raise (AttributeError ("'" ++ class_name o
                                ++ "' object has no attribute 'encode'")%string)
  end.

(** [o.isoformat()] *)
Definition isoformat (o : value) : result value :=
  match o with
  | VObject (PDatetime d) _ => Ok (VStr (datetime_isoformat d))
  | VObject (PDate d) _ => Ok (VStr (date_isoformat d))
  | VObject (PTime t) _ => Ok (VStr (time_isoformat t))
  | _ => Raise (AttributeError ("'" ++ class_name o
                                ++ "' object has no attribute 'isoformat'")%string)
  end.

(** [datetime.datetime.isoformat(o)], the unbound method. *)
Definition datetime_datetime_isoformat (o : value) : result value :=
  match o with
  | VObject (PDatetime d) _ => Ok (VStr (datetime_isoformat d))
  | _ => Raise (TypeError "descriptor 'isoformat' requires a 'datetime.datetime' object")
  end.

(** [str(o)] *)
Definition str_ (o : value) : result value :=
  match o with
  | VStr s => Ok (VStr s)
  | VInt n => Ok (VStr (int_repr n))
  | VObject (PDecimal d) _ => Ok (VStr (decimal_str d))
  | VObject (PUUID u) _ => Ok (VStr (uuid_str u))
  | VObject (PPromise s) _ => Ok (VStr s)
  | _ => Raise (Unmodelled "str of another object")
  end.

Section Registry.
Context `{ExternalCodecs}.

(** [datetime.datetime.fromisoformat(o)] *)
Definition fromisoformat_datetime (o : value) : result datetime :=
  match o with
  | VStr s => datetime_fromisoformat s
  | _ => Raise (TypeError "fromisoformat: argument must be str")
  end.

(** [datetime.time.fromisoformat(o)] *)
Definition fromisoformat_time (o : value) : result time :=
  match o with
  | VStr s => time_fromisoformat s
  | _ => Raise (TypeError "fromisoformat: argument must be str")
  end.

(** The tables as the module leaves them once imported: the two
    decode-only helpers, then the five [register_type] calls in order. *)
Definition initial_registry : registry :=
  {| _encoders := ∅;
     _decoders :=
       <[T "bytes" := fun o => b <- encode_utf8 o ;; Ok (VBytes b)]>
       (<[T "base64" := fun o => b <- encode_utf8 o ;;
                                 r <- b64decode b ;; Ok (VBytes r)]> ∅) |}.

Definition module_registry : registry :=
  register_type (Class_ "uuid.UUID") (T "uuid")
    (fun o => match o with
              | VObject (PUUID u) _ => Ok (VDict [(T "hex", VStr (uuid_hex u))])
              | _ => Raise (AttributeError "object has no attribute 'hex'")
              end)
    UUID
  (register_type (Class_ "decimal.Decimal") (T "decimal") str_ Decimal
  (register_type (Class_ "datetime.time") (T "time") isoformat
    (fun o => t <- fromisoformat_time o ;; Ok (VObject (PTime t) None))
  (register_type (Class_ "datetime.date") (T "date") isoformat
    (fun o => d <- fromisoformat_datetime o ;;
              Ok (VObject (PDate (datetime_date d)) None))
  (register_type (Module_ "datetime") (T "datetime")
    datetime_datetime_isoformat
    (fun o => d <- fromisoformat_datetime o ;;
              Ok (VObject (PDatetime d) None))
  initial_registry)))).

End Registry.

(** ** The decoder: [object_hook] *)

(** [hash(k)], of which a dictionary lookup needs only to know whether it
    raises: a list, a dictionary and an instance of a class without
    [__hash__] are not hashable, and [Decimal.__hash__] refuses a signaling
    NaN (with the message of the C implementation that [decimal] loads);
    every other value has a hash. *)
Definition hash_ (k : value) : result unit :=
  match k with
  | VList _ => Raise (TypeError "unhashable type: 'list'")
  | VDict _ => Raise (TypeError "unhashable type: 'dict'")
  | VObject (PDecimal (NaN _ true _)) _ =>
      Raise (TypeError "Cannot hash a signaling NaN value")
  | VObject (PUnhashable cls) _ =>
      Raise (TypeError ("unhashable type: '" ++ cls ++ "'")%string)
  | _ => Ok tt
  end.

(** [_decoders.get(k)]: the key is hashed first; the keys of the table are
    text, and among the hashable values only text equals one of them, or a
    lazy string, which hashes and compares as the text it stands for. *)
Definition decoders_get (decoders : gmap str DecoderT) (k : value)
    : result (option DecoderT) :=
  _ <- hash_ k ;;
  match k with
  | VStr m => Ok (decoders !! m)
  | VObject (PPromise s) _ => Ok (decoders !! s)
  | _ => Ok None
  end.

(** [o[k]] *)
Definition getitem (o : dict) (k : str) : result value :=
  or_raise (KeyError k) (dict_get o k).

(** [object_hook(o)], reading the module's [_decoders].  A registered
    decoder is a function, hence true in the test [if decoder]. *)
Definition object_hook (st : registry) (o : dict) : result value :=
  if keys_equal o [T "__type__"; T "__value__"] then
    marker <- getitem o (T "__type__") ;;
    decoder <- decoders_get (_decoders st) marker ;;
    match decoder with
    | Some decoder =>
        payload <- getitem o (T "__value__") ;;
        decoder payload
    | None => Raise (ValueError [VStr (T "Unsupported type"); VType; VDict o])
    end
  else Ok (VDict o).

(** ** The JSON parser ([json.loads] with an [object_hook]) *)

Definition is_ws (c : Z) : bool :=
  (c =? 32) || (c =? 9) || (c =? 10) || (c =? 13).

Fixpoint skip_ws (s : str) : str :=
  match s with
  | c :: s' => if is_ws c then skip_ws s' else s
  | [] => []
  end.

(** The character an escape letter stands for ([json.decoder.BACKSLASH]). *)
Definition unescape (c : Z) : option Z :=
  if c =? 34 then Some 34
  else if c =? 92 then Some 92
  else if c =? 47 then Some 47
  else if c =? ch "b" then Some 8
  else if c =? ch "f" then Some 12
  else if c =? ch "n" then Some 10
  else if c =? ch "r" then Some 13
  else if c =? ch "t" then Some 9
  else None.

(** The number written by four hexadecimal digits. *)
Definition decode_uXXXX (h1 h2 h3 h4 : Z) : result Z :=
  or_raise (JSONDecodeError "Invalid \uXXXX escape")
           (int_of_hex 0 [h1; h2; h3; h4]).

Definition prepend (c : Z) (r : result (str * str)) : result (str * str) :=
  p <- r ;; Ok (c :: p.1, p.2).

(** [json.decoder.scanstring] in strict mode, from just after the opening
    quote: the text of the string and what follows its closing quote. *)
Fixpoint scanstring (s : str) : result (str * str) :=
  match s with
  | [] => Raise (JSONDecodeError "Unterminated string starting at")
  | c :: r =>
      if c =? 34 then Ok ([], r)
      else if c =? 92 then
        match r with
        | [] => Raise (JSONDecodeError "Unterminated string starting at")
        | esc :: r1 =>
            if esc =? ch "u" then
              match r1 with
              | h1 :: h2 :: h3 :: h4 :: r2 =>
                  match decode_uXXXX h1 h2 h3 h4 with
                  | Raise e => Raise e
                  | Ok uni =>
                      if (0xD800 <=? uni) && (uni <=? 0xDBFF) then
                        match r2 with
                        | 92 :: 117 :: r3 =>
                            match r3 with
                            | g1 :: g2 :: g3 :: g4 :: r4 =>
                                match decode_uXXXX g1 g2 g3 g4 with
                                | Raise e => Raise e
                                | Ok uni2 =>
                                    if (0xDC00 <=? uni2) && (uni2 <=? 0xDFFF)
                                    then prepend
                                           (0x10000 +
                                            Z.lor (Z.shiftl (uni - 0xD800) 10)
                                                  (uni2 - 0xDC00))
                                           (scanstring r4)
                                    else prepend uni (scanstring r2)
                                end
                            | _ => Raise (JSONDecodeError "Invalid \uXXXX escape")
                            end
                        | _ => prepend uni (scanstring r2)
                        end
                      else prepend uni (scanstring r2)
                  end
              | _ => Raise (JSONDecodeError "Invalid \uXXXX escape")
              end
            else
              match unescape esc with
              | Some c' => prepend c' (scanstring r1)
              | None => Raise (JSONDecodeError "Invalid \escape")
              end
        end
      else if (0 <=? c) && (c <? 32) then
        Raise (JSONDecodeError "Invalid control character at")
      else prepend c (scanstring r)
  end.

(** What [NUMBER_RE] matches at the start of [s]: the integer and what
    follows it; a fraction or an exponent makes the number a float, which is
    outside this development. *)
Definition match_number (s : str) : option (result Z * str) :=
  let '(neg, s1) :=
    match s with
    | 45 :: r => (true, r)
    | _ => (false, s)
    end in
  let '(ds, rest) :=
    match s1 with
    | 48 :: r => ([48], r)
    | _ => span is_digit s1
    end in
  match ds with
  | [] => None
  | _ :: _ =>
      let is_frac :=
        match rest with
        | 46 :: d :: _ => is_digit d
        | _ => false
        end in
      let is_exp :=
        match rest with
        | e :: r =>
            (lower e =? ch "e")
            && match r with
               | 43 :: d :: _ | 45 :: d :: _ => is_digit d
               | d :: _ => is_digit d
               | [] => false
               end
        | [] => false
        end in
      if is_frac || is_exp then Some (Raise (Unmodelled "float"), rest)
      else Some (Ok (if neg then - int_of_digits ds else int_of_digits ds), rest)
  end.

Definition startswith (s prefix : str) : bool :=
  str_eqb (take (length prefix) s) prefix.

(** [scan_once], [JSONObject] and [JSONArray] of [json.decoder], on the text
    that remains to be read.  [object_loop] starts just after the opening
    quote of a key, [array_loop] at a value. *)
Fixpoint scan_once (fuel : nat) (object_hook : dict -> result value)
    (s : str) : result (value * str) :=
  match fuel with
  | O => Raise RecursionError
  | S fuel =>
      match s with
      | [] => Raise (JSONDecodeError "Expecting value")
      | c :: r =>
          if c =? 34 then
            p <- scanstring r ;; Ok (VStr p.1, p.2)
          else if c =? ch "{" then
            let r := match r with
                     | [] => r
                     | c' :: _ => if c' =? 34 then r else skip_ws r
                     end in
            match r with
            | c' :: r' =>
                if c' =? ch "}" then
                  o <- object_hook [] ;; Ok (o, r')
                else if c' =? 34 then object_loop fuel object_hook r' []
                else Raise (JSONDecodeError
                       "Expecting property name enclosed in double quotes")
            | [] => Raise (JSONDecodeError
                      "Expecting property name enclosed in double quotes")
            end
          else if c =? ch "[" then
            match skip_ws r with
            | c' :: r' =>
                if c' =? ch "]" then Ok (VList [], r')
                else array_loop fuel object_hook (skip_ws r) []
            | [] => array_loop fuel object_hook [] []
            end
          else if startswith s (T "null") then Ok (VNone, drop 4 s)
          else if startswith s (T "true") then Ok (VBool true, drop 4 s)
          else if startswith s (T "false") then Ok (VBool false, drop 5 s)
          else
            match match_number s with
            | Some (n, rest) => n <- n ;; Ok (VInt n, rest)
            | None =>
                if startswith s (T "NaN") || startswith s (T "Infinity")
                   || startswith s (T "-Infinity")
                then Raise (Unmodelled "float")
                else Raise (JSONDecodeError "Expecting value")
            end
      end
  end
with object_loop (fuel : nat) (object_hook : dict -> result value)
    (s : str) (pairs : list (str * value)) : result (value * str) :=
  match fuel with
  | O => Raise RecursionError
  | S fuel =>
      p <- scanstring s ;;
      let key := p.1 in
      let s := match p.2 with
               | 58 :: _ => p.2
               | _ => skip_ws p.2
               end in
      match s with
      | 58 :: s =>
          p <- scan_once fuel object_hook (skip_ws s) ;;
          let pairs := pairs ++ [(key, p.1)] in
          match skip_ws p.2 with
          | c :: s =>
              if c =? ch "}" then
                o <- object_hook (dict_of_pairs pairs) ;; Ok (o, s)
              else if c =? ch "," then
                match skip_ws s with
                | 34 :: s => object_loop fuel object_hook s pairs
                | _ => Raise (JSONDecodeError
                         "Expecting property name enclosed in double quotes")
                end
              else Raise (JSONDecodeError "Expecting ',' delimiter")
          | [] => Raise (JSONDecodeError "Expecting ',' delimiter")
          end
      | _ => Raise (JSONDecodeError "Expecting ':' delimiter")
      end
  end
with array_loop (fuel : nat) (object_hook : dict -> result value)
    (s : str) (values : list value) : result (value * str) :=
  match fuel with
  | O => Raise RecursionError
  | S fuel =>
      p <- scan_once fuel object_hook s ;;
      let values := values ++ [p.1] in
      match skip_ws p.2 with
      | c :: s =>
          if c =? ch "]" then Ok (VList values, s)
          else if c =? ch "," then array_loop fuel object_hook (skip_ws s) values
          else Raise (JSONDecodeError "Expecting ',' delimiter")
      | [] => Raise (JSONDecodeError "Expecting ',' delimiter")
      end
  end.

(** What [loads] may be given. *)
Inductive input :=
  | IStr (s : str)
  | IBytes (b : bytes)
  | IByteArray (b : bytes)
  | IMemoryView (b : bytes).

(** [json.loads(s, object_hook=object_hook)]: text is parsed as one JSON
    document with blanks allowed around it. *)
Definition json_loads (s : input) (object_hook : dict -> result value)
    : result value :=
  match s with
  | IStr s =>
      if startswith s [0xFEFF] then
        Raise (JSONDecodeError "Unexpected UTF-8 BOM (decode using utf-8-sig)")
      else
        p <- scan_once (2 * length s + 2) object_hook (skip_ws s) ;;
        match skip_ws p.2 with
        | [] => Ok p.1
        | _ :: _ => Raise (JSONDecodeError "Extra data")
        end
  | IBytes _ | IByteArray _ =>
      Raise (Unmodelled "json.loads detecting the encoding of bytes")
  | IMemoryView _ =>
      Raise (TypeError
        "the JSON object must be str, bytes or bytearray, not memoryview")
  end.

(** ** [loads] *)

(** [bytes.decode("utf-8")] *)
Definition decode_utf8 (b : bytes) : result str :=
  or_raise UnicodeDecodeError (UTF8.decode b).

(** [loads(s, _loads, decode_bytes, object_hook)] *)
Definition loads (s : input)
    (_loads : input -> (dict -> result value) -> result value)
    (decode_bytes : bool) (object_hook : dict -> result value)
    : result value :=
  s <- match s with
       | IMemoryView b => t <- decode_utf8 b ;; Ok (IStr t)
       | IByteArray b => t <- decode_utf8 b ;; Ok (IStr t)
       | IBytes b =>
           if decode_bytes then t <- decode_utf8 b ;; Ok (IStr t) else Ok s
       | IStr _ => Ok s
       end ;;
  _loads s object_hook.

(** [loads(s)] with the defaults of its other parameters: [json.loads],
    [decode_bytes=True] and the module's [object_hook]. *)
Definition loads_ (st : registry) (s : input) : result value :=
  loads s json_loads true (object_hook st).

(** ** Notions used to state the properties *)

(** [loads(dumps(v))] with the module's defaults. *)
Definition roundtrip (st : registry) (v : value) : result value :=
  text <- dumps v ;; loads_ st (IStr text).


(** What precedes the UTC offset in the text of a datetime. *)
Definition datetime_local (d : datetime) : str :=
  fmt0 4 (dt_year d) ++ T "-" ++ fmt0 2 (dt_month d) ++ T "-"
  ++ fmt0 2 (dt_day d) ++ T "T"
  ++ format_time (dt_hour d) (dt_minute d) (dt_second d) (dt_microsecond d).

(** The text form of a value of one of the kinds registered by default:
    ISO-8601 for the temporal kinds, where a datetime at UTC offset zero
    ends with Z in place of the offset, a plain date is taken at midnight
    and a time keeps its offset as [isoformat] writes it; [str] for a
    decimal and a UUID. *)
Definition text_form (p : payload) : option str :=
  match p with
  | PDatetime d =>
      match dt_utcoffset d with
      | Some 0 => Some (datetime_local d ++ T "Z")
      | _ => Some (datetime_isoformat d)
      end
  | PDate d => Some (date_isoformat d ++ T "T00:00:00")
  | PTime t => Some (time_isoformat t)
  | PDecimal d => Some (decimal_str d)
  | PUUID u => Some (uuid_str u)
  | PPromise _ | POther _ | PUnhashable _ => None
  end.

(** A code point that the JSON writer copies as it is and that the parser
    reads back as itself: printable ASCII other than the double quote and the
    backslash. *)
Definition plain (c : Z) : Prop := 32 <= c <= 126 /\ c <> 34 /\ c <> 92.

Definition plainb (c : Z) : bool :=
  (32 <=? c) && (c <=? 126) && negb (c =? 34) && negb (c =? 92).

(** A JSON string literal without escapes. *)
Definition quoted (t : str) : str := [34] ++ t ++ [34].

(** An instance of [ExternalCodecs] for running examples that do not reach
    these parsers. *)
Definition no_external_codecs : ExternalCodecs :=
  {| datetime_fromisoformat := fun _ => Raise (Unmodelled "datetime.fromisoformat");
     time_fromisoformat := fun _ => Raise (Unmodelled "time.fromisoformat");
     b64decode := fun _ => Raise (Unmodelled "base64.b64decode") |}.

Definition no_plus (s : str) : Prop := Forall (fun c => c <> 43) s.

(** The offset text after its sign. *)
Definition offset_body (off : Z) : str :=
  let hh := off / 3600000000 in
  let mm := (off mod 3600000000) / 60000000 in
  let ss := (off mod 3600000000) mod 60000000 in
  fmt0 2 hh ++ T ":" ++ fmt0 2 mm
  ++ (if ss =? 0 then []
      else T ":" ++ fmt0 2 (ss / 1000000)
           ++ (if ss mod 1000000 =? 0 then []
               else T "." ++ fmt0 6 (ss mod 1000000))).

(** The JSON text of an envelope whose marker and payload are text. *)
Definition envelope_text (m x : str) : str :=
  Q "{'__type__': '" ++ m ++ Q "', '__value__': '" ++ x ++ Q "'}".

(** Text made of ASCII code points only. *)
Definition ascii_only (s : str) : Prop := Forall (fun c => 0 <= c < 128) s.

(** Text made of decimal digits only. *)
Definition all_digits (s : str) : Prop := Forall (fun c => 48 <= c <= 57) s.

(** The parts of a numeric string: sign, fraction after the integer part,
    exponent with its sign and digits, and the value of that exponent. *)
Definition sign_text (s : bool) : str := if s then T "-" else [].

Definition frac_text (f : option str) : str :=
  match f with Some fp => 46 :: fp | None => [] end.

Definition exp_text (e : option (bool * str)) : str :=
  match e with
  | Some (neg, ds) => 69 :: (if neg then 45 else 43) :: ds
  | None => []
  end.

Definition exp_value (e : option (bool * str)) : Z :=
  match e with
  | Some (neg, ds) => if neg then - int_of_digits ds else int_of_digits ds
  | None => 0
  end.

(** What the date decoder makes of the datetime decoder's outcome on the
    same payload: the date part of a datetime, an error as it is. *)
Definition date_of_decoded (r : result value) : result value :=
  match r with
  | Ok (VObject (PDatetime d) _) => Ok (VObject (PDate (datetime_date d)) None)
  | Ok v => Ok v
  | Raise e => Raise e
  end.

(** * Properties *)

(** Boolean comparisons on integers, settled by linear arithmetic. *)
Ltac zbool :=
  repeat first
    [ rewrite andb_true_iff | rewrite andb_false_iff
    | rewrite orb_true_iff | rewrite orb_false_iff
    | rewrite negb_true_iff | rewrite negb_false_iff
    | rewrite Z.leb_le | rewrite Z.leb_gt
    | rewrite Z.ltb_lt | rewrite Z.ltb_ge
    | rewrite Z.eqb_eq | rewrite Z.eqb_neq ];
  Z.div_mod_to_equations; lia.

(** Decide the test of a conditional in the goal. *)
Ltac settle_if :=
  match goal with
  | |- context [if ?b then _ else _] =>
      first [ replace b with true by (symmetry; zbool)
            | replace b with false by (symmetry; zbool) ]
  end.

(** ** UTF-8 *)

Lemma utf8_decode_encode_cp c b rest :
  UTF8.encode_cp c = Some b ->
  UTF8.decode (b ++ rest) = cons c <$> UTF8.decode rest.
Proof.
  unfold UTF8.encode_cp.
  repeat case_match; intros [= <-]; cbn [app UTF8.decode]; unfold UTF8.is_cont.
  all: repeat match goal with
       | H : (_ <? _) = _ |- _ =>
           first [apply Z.ltb_lt in H | apply Z.ltb_ge in H]
       | H : (_ && _) = false |- _ =>
           apply andb_false_iff in H; rewrite Z.leb_gt, Z.ltb_ge in H
       end.
  all: repeat settle_if.
  all: try reflexivity.
  all: f_equal; f_equal; Z.div_mod_to_equations; lia.
Qed.

Lemma utf8_decode_encode s b :
  UTF8.encode s = Some b -> UTF8.decode b = Some s.
Proof.
  revert b; induction s as [|c s IH]; intros b; cbn [UTF8.encode].
  - by intros [= <-].
  - destruct (UTF8.encode_cp c) as [bc|] eqn:Hc; [|done].
    destruct (UTF8.encode s) as [bs|]; [|done]. intros [= <-].
    rewrite (utf8_decode_encode_cp _ _ _ Hc), (IH _ eq_refl). done.
Qed.

Lemma utf8_encode_ascii s :
  Forall (fun c => 0 <= c < 128) s -> UTF8.encode s = Some s.
Proof.
  induction 1 as [|c s Hc _ IH]; [done|].
  cbn [UTF8.encode]. rewrite IH. unfold UTF8.encode_cp.
  by repeat settle_if.
Qed.

(** ** Input normalisation of [loads] *)

Section Loads.
Variable _loads : input -> (dict -> result value) -> result value.
Variable hook : dict -> result value.

Lemma loads_str t flag : loads (IStr t) _loads flag hook = _loads (IStr t) hook.
Proof. reflexivity. Qed.

Lemma loads_encoded_bytes t b :
  UTF8.encode t = Some b ->
  loads (IBytes b) _loads true hook = _loads (IStr t) hook.
Proof.
  intros Hb. unfold loads, decode_utf8.
  by rewrite (utf8_decode_encode _ _ Hb).
Qed.

Lemma loads_encoded_view t b flag :
  UTF8.encode t = Some b ->
  loads (IMemoryView b) _loads flag hook = _loads (IStr t) hook.
Proof.
  intros Hb. unfold loads, decode_utf8.
  by rewrite (utf8_decode_encode _ _ Hb).
Qed.

End Loads.

(** C8: for text [t] with a UTF-8 encoding [b], [loads] of the bytes [b]
    with [decode_bytes] true gives what [loads] of [t] gives, and so does
    [loads] of a memory view of [b], whatever the underlying parser and hook;
    with the standard parser, the bytes of [{"x": 1}] and a view of them both
    load as the one-key mapping. *)
Theorem loads_bytes_same_as_text
    (_loads : input -> (dict -> result value) -> result value)
    (hook : dict -> result value) (t : str) (b : bytes) (flag flag' : bool) :
  UTF8.encode t = Some b ->
  loads (IBytes b) _loads true hook = loads (IStr t) _loads flag hook
  /\ loads (IMemoryView b) _loads flag' hook = loads (IStr t) _loads flag hook
  /\ loads (IMemoryView b) _loads flag' hook = loads (IBytes b) _loads true hook.
Proof.
  intros Hb.
  rewrite (loads_encoded_bytes _ _ _ _ Hb), (loads_encoded_view _ _ _ _ _ Hb).
  by rewrite loads_str.
Qed.

Lemma loads_bytes_same_as_text_witness :
  UTF8.encode (Q "{'x': 1}") = Some (Q "{'x': 1}")
  /\ loads (IBytes (Q "{'x': 1}")) json_loads true
       (object_hook (@module_registry no_external_codecs))
     = Ok (VDict [(T "x", VInt 1)])
  /\ loads (IMemoryView (Q "{'x': 1}")) json_loads true
       (object_hook (@module_registry no_external_codecs))
     = Ok (VDict [(T "x", VInt 1)]).
Proof.
  assert (He : UTF8.encode (Q "{'x': 1}") = Some (Q "{'x': 1}"))
    by (vm_compute; reflexivity).
  destruct (loads_bytes_same_as_text json_loads
              (object_hook (@module_registry no_external_codecs))
              (Q "{'x': 1}") (Q "{'x': 1}") true true He) as (H1 & H2 & _).
  split; [exact He|]. split.
  - rewrite H1. vm_compute. reflexivity.
  - rewrite H2. vm_compute. reflexivity.
Defined.

(** C10: a memory view and a [bytearray] are always decoded as UTF-8
    before the parser sees them, whatever [decode_bytes] says (and an
    undecodable one raises without reaching the parser); a [bytes] object is
    decoded only when the flag is set, and handed over as it is otherwise. *)
Theorem loads_always_decodes_buffers
    (_loads : input -> (dict -> result value) -> result value)
    (hook : dict -> result value) (b : bytes) (flag : bool) :
  loads (IMemoryView b) _loads flag hook
    = (t <- decode_utf8 b ;; _loads (IStr t) hook)
  /\ loads (IByteArray b) _loads flag hook
    = (t <- decode_utf8 b ;; _loads (IStr t) hook)
  /\ loads (IBytes b) _loads true hook
    = (t <- decode_utf8 b ;; _loads (IStr t) hook)
  /\ loads (IBytes b) _loads false hook = _loads (IBytes b) hook.
Proof.
  unfold loads; repeat split; cbn [bind]; by destruct (decode_utf8 b).
Qed.

(** The flag does change what the parser receives for [bytes]: a parser
    that reports the kind of its argument tells the two calls apart. *)
Example loads_flag_matters_for_bytes :
  let kind_of (s : input) (_ : dict -> result value) :=
    Ok (VBool match s with IStr _ => true | _ => false end) in
  loads (IBytes (T "1")) kind_of true (fun o => Ok (VDict o)) = Ok (VBool true)
  /\ loads (IBytes (T "1")) kind_of false (fun o => Ok (VDict o)) = Ok (VBool false)
  /\ loads (IByteArray (T "1")) kind_of false (fun o => Ok (VDict o)) = Ok (VBool true)
  /\ loads (IMemoryView (T "1")) kind_of false (fun o => Ok (VDict o)) = Ok (VBool true).
Proof. vm_compute. by repeat split. Qed.

(** ** The encoder fallback chain *)

(** C7: a value exposing [__json__] is encoded as the result of calling
    it, whatever the value is an instance of: [default] returns that result
    itself, and the writer goes on with it in place of the value. *)
Theorem default_prefers_json_method (o : value) (r : value) :
  getattr_json o = Some r ->
  JSONEncoder_default o = Ok r
  /\ forall p fuel, o = VObject p (Some r) ->
       iterencode JSONEncoder_default (S fuel) o
       = iterencode JSONEncoder_default fuel r.
Proof.
  intros Hr. split.
  - unfold JSONEncoder_default. by rewrite Hr.
  - intros p fuel ->. reflexivity.
Qed.

Lemma default_prefers_json_method_witness :
  JSONEncoder_default
    (VObject (PDatetime (mk_datetime 2024 1 1 0 0 0 0 (Some 0)))
             (Some (VDict [(T "year", VInt 2024)])))
  = Ok (VDict [(T "year", VInt 2024)])
  /\ dumps (VObject (PDecimal (Finite false 1999 (-2))) (Some (VInt 7)))
     = Ok (T "7").
Proof.
  split.
  - exact (proj1 (default_prefers_json_method
                    (VObject (PDatetime (mk_datetime 2024 1 1 0 0 0 0 (Some 0)))
                             (Some (VDict [(T "year", VInt 2024)])))
                    (VDict [(T "year", VInt 2024)]) eq_refl)).
  - vm_compute. reflexivity.
Defined.





(** ** Suffixes *)

Lemma str_eqb_eq (a b : str) : str_eqb a b = true <-> a = b.
Proof. apply bool_decide_eq_true. Qed.

Lemma endswith_spec (r suffix : str) :
  endswith r suffix = true <-> exists p, r = p ++ suffix.
Proof.
  unfold endswith. rewrite andb_true_iff, Nat.leb_le, str_eqb_eq. split.
  - intros [Hlen Hdrop]. exists (take (length r - length suffix) r).
    set (n := (length r - length suffix)%nat) in *.
    rewrite <- Hdrop. by rewrite take_drop.
  - intros [p ->]. rewrite length_app. split; [lia|].
    replace (length p + length suffix - length suffix)%nat with (length p) by lia.
    by rewrite drop_app_length.
Qed.

Lemma slice_to_minus_app (p suffix : str) :
  slice_to_minus (p ++ suffix) (length suffix) = p.
Proof.
  unfold slice_to_minus. rewrite length_app.
  replace (length p + length suffix - length suffix)%nat with (length p) by lia.
  by rewrite take_app_length.
Qed.

(** Only the last [length suffix] code points matter. *)
Lemma endswith_app_r (p s suffix : str) :
  (length suffix <= length s)%nat ->
  endswith (p ++ s) suffix = endswith s suffix.
Proof.
  intros Hlen. unfold endswith. rewrite length_app.
  replace (length suffix <=? length p + length s)%nat with true
    by (symmetry; apply Nat.leb_le; lia).
  replace (length suffix <=? length s)%nat with true
    by (symmetry; by apply Nat.leb_le).
  replace (length p + length s - length suffix)%nat
    with (length p + (length s - length suffix))%nat by lia.
  by rewrite drop_app_add.
Qed.

(** ** The text of integers, dates and offsets *)

Lemma uint_digits (u : Decimal.uint) :
  Forall (fun c => 48 <= c <= 57) (T (NilEmpty.string_of_uint u)).
Proof.
  induction u; cbn; [constructor|..]; (constructor; [by vm_compute|done]).
Qed.

Lemma uint_zeros (u : Decimal.uint) :
  Forall (fun c => c = 48) (T (NilEmpty.string_of_uint u)) ->
  Pos.of_uint u = 0%N.
Proof.
  induction u as [|u IH|u _|u _|u _|u _|u _|u _|u _|u _|u _]; cbn;
    [done|intros [_ Hu]%Forall_cons; by apply IH|..];
    intros [Hc _]%Forall_cons; discriminate Hc.
Qed.

Lemma int_repr_digits n : 0 <= n -> Forall (fun c => 48 <= c <= 57) (int_repr n).
Proof.
  intros Hn. unfold int_repr, NilZero.string_of_int.
  destruct (Z.to_int n) as [u|u] eqn:Hu.
  - unfold NilZero.string_of_uint. destruct u; try apply uint_digits.
    repeat constructor; by vm_compute.
  - exfalso. destruct n; try done; cbn in Hu; discriminate.
Qed.

Lemma int_repr_nonempty n : int_repr n <> [].
Proof.
  unfold int_repr, NilZero.string_of_int, NilZero.string_of_uint.
  destruct (Z.to_int n) as [u|u] eqn:Hu; [|done].
  destruct u; try done.
Qed.

Lemma int_repr_zeros n :
  0 <= n -> Forall (fun c => c = 48) (int_repr n) -> n = 0.
Proof.
  intros Hn Hs. rewrite <- (DecimalZ.of_to n).
  unfold int_repr, NilZero.string_of_int, NilZero.string_of_uint in Hs.
  destruct (Z.to_int n) as [u|u].
  - cbn. unfold Z.of_uint. destruct u; try (by rewrite (uint_zeros _ Hs)). done.
  - cbn in Hs. apply Forall_cons in Hs as [Hc _]. discriminate Hc.
Qed.

Lemma zfill_length w s : (w <= length (zfill w s))%nat.
Proof. unfold zfill. rewrite length_app, length_replicate. lia. Qed.

Lemma fmt0_nonneg w n : 0 <= n -> fmt0 w n = zfill w (int_repr n).
Proof. intros Hn. unfold fmt0. by settle_if. Qed.

Lemma fmt0_digits w n : 0 <= n -> Forall (fun c => 48 <= c <= 57) (fmt0 w n).
Proof.
  intros Hn. rewrite (fmt0_nonneg _ _ Hn). apply Forall_app_2.
  - apply Forall_replicate. lia.
  - by apply int_repr_digits.
Qed.

Lemma fmt0_zeros w n : 0 <= n -> Forall (fun c => c = 48) (fmt0 w n) -> n = 0.
Proof.
  intros Hn. rewrite (fmt0_nonneg _ _ Hn). intros [_ Hs]%Forall_app.
  by apply int_repr_zeros.
Qed.

(** A list is cut in one way only at a separator that occurs in neither
    left part. *)
Lemma split_unique (c : Z) (l1 l2 l3 l4 : str) :
  Forall (fun x => x <> c) l1 -> Forall (fun x => x <> c) l3 ->
  l1 ++ c :: l2 = l3 ++ c :: l4 -> l1 = l3 /\ l2 = l4.
Proof.
  intros H1; revert l3. induction H1 as [|a l1 Ha _ IH]; intros l3 H3; cbn.
  - destruct H3 as [|x l3 Hx _]; cbn; intros [= ]; [done|]. by subst.
  - destruct H3 as [|x l3 Hx H3]; cbn; intros [= ]; subst; [done|].
    destruct (IH _ H3 ltac:(done)) as [-> ->]. done.
Qed.

(** The same, for a separator that occurs in neither right part. *)
Lemma split_unique_r (c : Z) (l1 l2 l3 l4 : str) :
  Forall (fun x => x <> c) l2 -> Forall (fun x => x <> c) l4 ->
  l1 ++ c :: l2 = l3 ++ c :: l4 -> l1 = l3 /\ l2 = l4.
Proof.
  intros H2 H4 Heq. apply (f_equal reverse) in Heq.
  rewrite !reverse_app, !reverse_cons, <- !app_assoc in Heq. cbn in Heq.
  apply split_unique in Heq as [Ha Hb]; [|by apply Forall_reverse ..].
  split; by apply (inj reverse).
Qed.

Lemma datetime_isoformat_split d :
  datetime_isoformat d = datetime_local d ++ format_offset (dt_utcoffset d).
Proof.
  unfold datetime_isoformat, datetime_local. by rewrite <- !app_assoc.
Qed.

Lemma no_plus_plain_literal (s : str) :
  forallb (fun c => negb (c =? 43)) s = true -> no_plus s.
Proof.
  rewrite forallb_forall. intros Hs. apply Forall_forall. intros c Hc.
  apply list_elem_of_In, Hs in Hc. revert Hc. zbool.
Qed.

Lemma no_plus_uint u : no_plus (T (NilEmpty.string_of_uint u)).
Proof.
  eapply Forall_impl; [apply uint_digits|]. cbn. lia.
Qed.

Lemma no_plus_int_repr n : no_plus (int_repr n).
Proof.
  unfold int_repr, NilZero.string_of_int, NilZero.string_of_uint.
  destruct (Z.to_int n) as [u|u]; [|constructor; [done|]];
    destruct u; try apply no_plus_uint; by apply no_plus_plain_literal.
Qed.

Lemma no_plus_fmt0 w n : no_plus (fmt0 w n).
Proof.
  unfold fmt0, zfill.
  destruct (n <? 0); [constructor; [done|]|];
    (apply Forall_app_2; [by apply Forall_replicate|apply no_plus_int_repr]).
Qed.

Ltac no_plus_tac :=
  repeat first
    [ apply no_plus_fmt0
    | apply Forall_nil_2
    | by apply no_plus_plain_literal
    | apply Forall_app_2
    | apply Forall_cons_2; [done|]
    | match goal with |- Forall _ (if ?b then _ else _) => destruct b end ].

Lemma no_plus_format_time hh mm ss us : no_plus (format_time hh mm ss us).
Proof. unfold format_time, no_plus. no_plus_tac. Qed.

Lemma no_plus_datetime_local d : no_plus (datetime_local d).
Proof.
  unfold datetime_local, no_plus.
  repeat first
    [ apply no_plus_format_time
    | apply Forall_app_2;
      [first [apply no_plus_fmt0 | by apply no_plus_plain_literal]|] ].
Qed.

Lemma format_offset_Some off :
  format_offset (Some off)
  = (if off <? 0 then 45 else 43) :: offset_body (Z.abs off).
Proof. unfold format_offset, offset_body. by destruct (off <? 0). Qed.

Lemma no_plus_offset_body off : no_plus (offset_body off).
Proof. unfold offset_body, no_plus; cbv zeta. no_plus_tac. Qed.

Lemma offset_body_zero off :
  0 <= off -> offset_body off = T "00:00" -> off = 0.
Proof.
  intros Hoff. unfold offset_body; cbv zeta.
  set (hh := off / 3600000000). set (mm := (off mod 3600000000) / 60000000).
  set (ss := (off mod 3600000000) mod 60000000).
  set (tail := if ss =? 0 then [] else _).
  assert (Hhh : 0 <= hh) by (subst hh; Z.div_mod_to_equations; lia).
  assert (Hmm : 0 <= mm) by (subst mm; Z.div_mod_to_equations; lia).
  change (fmt0 2 hh ++ T ":" ++ fmt0 2 mm ++ tail)
    with (fmt0 2 hh ++ 58 :: fmt0 2 mm ++ tail).
  change (T "00:00") with ([48; 48] ++ 58 :: [48; 48]).
  intros Heq.
  apply split_unique in Heq as [Hh Heq];
    [| eapply Forall_impl; [by apply fmt0_digits|]; cbn; intros; lia
     | by repeat constructor].
  assert (hh = 0) as Hh0.
  { apply (fmt0_zeros 2); [done|]. rewrite Hh. by repeat constructor. }
  pose proof (zfill_length 2 (int_repr mm)) as Hlen.
  rewrite <- (fmt0_nonneg 2 mm Hmm) in Hlen.
  assert (Htail : tail = []).
  { apply (f_equal length) in Heq. rewrite length_app in Heq.
    change (length [48; 48]) with 2%nat in Heq.
    apply length_zero_iff_nil. lia. }
  rewrite Htail, app_nil_r in Heq.
  assert (mm = 0) as Hm0.
  { apply (fmt0_zeros 2); [done|]. rewrite Heq. by repeat constructor. }
  assert (ss = 0) as Hs0.
  { subst tail. destruct (ss =? 0) eqn:E; [by apply Z.eqb_eq|discriminate Htail]. }
  subst hh mm ss. Z.div_mod_to_equations. lia.
Qed.

(** The text of a datetime ends with +00:00 exactly when its UTC offset is
    zero. *)
Lemma isoformat_ends_with_utc d :
  endswith (datetime_isoformat d) (T "+00:00") = true <-> dt_utcoffset d = Some 0.
Proof.
  rewrite endswith_spec, datetime_isoformat_split. split.
  - intros [p Hp]. change (T "+00:00") with (43 :: T "00:00") in Hp.
    destruct (dt_utcoffset d) as [off|].
    + rewrite format_offset_Some in Hp.
      destruct (off <? 0) eqn:Hneg.
      * exfalso.
        assert (Hno : no_plus (p ++ 43 :: T "00:00")).
        { rewrite <- Hp. apply Forall_app_2; [apply no_plus_datetime_local|].
          constructor; [done|apply no_plus_offset_body]. }
        apply Forall_app in Hno as [_ Hno]. by apply Forall_cons in Hno as [? _].
      * apply split_unique_r in Hp as [_ Hb].
        -- apply Z.ltb_ge in Hneg. f_equal.
           apply offset_body_zero in Hb; lia.
        -- apply no_plus_offset_body.
        -- by apply no_plus_plain_literal.
    + exfalso. cbn [format_offset] in Hp. rewrite app_nil_r in Hp.
      pose proof (no_plus_datetime_local d) as Hno. rewrite Hp in Hno.
      apply Forall_app in Hno as [_ Hno]. by apply Forall_cons in Hno as [? _].
  - intros ->. by exists (datetime_local d).
Qed.

(** ** Dates and datetimes *)

Lemma midnight_isoformat (d : date) :
  datetime_isoformat (mk_datetime (year d) (month d) (day d) 0 0 0 0 None)
  = date_isoformat d ++ T "T00:00:00".
Proof.
  unfold datetime_isoformat, date_isoformat; cbn [dt_year dt_month dt_day
    dt_hour dt_minute dt_second dt_microsecond dt_utcoffset].
  change (format_offset None) with (@nil Z).
  change (format_time 0 0 0 0) with (T "00:00:00").
  rewrite app_nil_r, <- !app_assoc. reflexivity.
Qed.

Lemma default_plain_date (d : date) :
  JSONEncoder_default (VObject (PDate d) None)
  = Ok (VStr (date_isoformat d ++ T "T00:00:00")).
Proof.
  unfold JSONEncoder_default; cbn [getattr_json isinstance_dates].
  rewrite midnight_isoformat, endswith_app_r by (cbn; lia).
  reflexivity.
Qed.

(** C3 fails as stated: the date 2024-01-01 is written with a time
    component, not as the date-only text 2024-01-01. *)
Lemma plain_date_has_time_component :
  JSONEncoder_default (VObject (PDate (mk_date 2024 1 1)) None)
  = Ok (VStr (T "2024-01-01T00:00:00"))
  /\ date_isoformat (mk_date 2024 1 1) = T "2024-01-01"
  /\ JSONEncoder_default (VObject (PDate (mk_date 2024 1 1)) None)
     <> Ok (VStr (date_isoformat (mk_date 2024 1 1))).
Proof.
  split; [|split]; [vm_compute; reflexivity ..|].
  vm_compute. discriminate.
Qed.

(** C6: for a datetime whose ISO-8601 text ends with +00:00, the encoder
    gives that text with the Z in place of these six characters; for any
    other it gives the text as it is.  The text ends with +00:00 exactly
    when the UTC offset of the datetime is zero. *)
Theorem utc_offset_written_as_Z (d : datetime) :
  (forall p, datetime_isoformat d = p ++ T "+00:00" ->
     JSONEncoder_default (VObject (PDatetime d) None) = Ok (VStr (p ++ T "Z")))
  /\ ((forall p, datetime_isoformat d <> p ++ T "+00:00") ->
     JSONEncoder_default (VObject (PDatetime d) None)
     = Ok (VStr (datetime_isoformat d)))
  /\ ((exists p, datetime_isoformat d = p ++ T "+00:00")
      <-> dt_utcoffset d = Some 0).
Proof.
  unfold JSONEncoder_default; cbn [getattr_json isinstance_dates].
  split; [|split].
  - intros p Hp. rewrite (proj2 (endswith_spec _ _)) by eauto.
    rewrite Hp.
    by replace (slice_to_minus (p ++ T "+00:00") 6) with p
      by (symmetry; apply (slice_to_minus_app p (T "+00:00"))).
  - intros Hno. destruct (endswith _ _) eqn:He; [|done].
    apply endswith_spec in He as [p Hp]. by destruct (Hno p).
  - rewrite <- endswith_spec. apply isoformat_ends_with_utc.
Qed.

Lemma utc_offset_written_as_Z_witness :
  JSONEncoder_default
    (VObject (PDatetime (mk_datetime 2024 1 1 0 0 0 0 (Some 0))) None)
  = Ok (VStr (T "2024-01-01T00:00:00Z"))
  /\ JSONEncoder_default
       (VObject (PDatetime (mk_datetime 2024 1 1 0 0 0 0 (Some 3600000000))) None)
     = Ok (VStr (T "2024-01-01T00:00:00+01:00")).
Proof.
  split.
  - apply (proj1 (utc_offset_written_as_Z
                    (mk_datetime 2024 1 1 0 0 0 0 (Some 0)))
             (T "2024-01-01T00:00:00")).
    vm_compute. reflexivity.
  - apply (proj2 (utc_offset_written_as_Z
                    (mk_datetime 2024 1 1 0 0 0 0 (Some 3600000000)))).
    intros p Hp.
    assert (He : endswith (datetime_isoformat
                   (mk_datetime 2024 1 1 0 0 0 0 (Some 3600000000)))
                   (T "+00:00") = true) by (apply endswith_spec; eauto).
    vm_compute in He. discriminate He.
Defined.

(** ** Text that needs no escaping *)

Lemma plainb_spec c : plainb c = true <-> plain c.
Proof. unfold plainb, plain. zbool. Qed.

Lemma plain_literal (s : str) : forallb plainb s = true -> Forall plain s.
Proof.
  rewrite forallb_forall, Forall_forall. intros Hs c Hc.
  apply plainb_spec, Hs. by apply list_elem_of_In.
Qed.

Lemma plain_uint (u : Decimal.uint) :
  Forall plain (T (NilEmpty.string_of_uint u)).
Proof.
  induction u; cbn; [constructor|..];
    (constructor; [by apply plainb_spec|done]).
Qed.

Lemma plain_int_repr n : Forall plain (int_repr n).
Proof.
  unfold int_repr, NilZero.string_of_int.
  destruct (Z.to_int n) as [u|u];
    [|cbn; constructor; [by apply plainb_spec|]].
  all: destruct u; try apply plain_uint; by apply plain_literal.
Qed.

Lemma plain_zfill w s : Forall plain s -> Forall plain (zfill w s).
Proof.
  intros Hs. apply Forall_app_2; [|done].
  apply Forall_replicate. by apply plainb_spec.
Qed.

Lemma plain_fmt0 w n : Forall plain (fmt0 w n).
Proof.
  unfold fmt0. destruct (n <? 0).
  - constructor; [by apply plainb_spec|]. apply plain_zfill, plain_int_repr.
  - apply plain_zfill, plain_int_repr.
Qed.

Lemma plain_digits n : Forall plain (digits n).
Proof.
  unfold digits, NilZero.string_of_uint.
  destruct (N.to_uint n); try apply plain_uint; by apply plain_literal.
Qed.

Lemma plain_hex_digit v : plain (hex_digit (v mod 16)).
Proof.
  unfold hex_digit, plain. destruct (v mod 16 <? 10) eqn:E;
    revert E; zbool.
Qed.

Lemma plain_hexn w v : Forall plain (hexn w v).
Proof.
  revert v; induction w as [|w IH]; intros v; cbn; [constructor|].
  apply Forall_app_2; [apply IH|]. constructor; [apply plain_hex_digit|constructor].
Qed.

Ltac plain_tac :=
  repeat first
    [ apply plain_fmt0 | apply plain_int_repr | apply plain_digits
    | apply plain_hexn
    | apply Forall_take | apply Forall_drop
    | apply Forall_replicate; by apply plainb_spec
    | apply Forall_nil_2
    | apply Forall_app_2
    | apply Forall_cons_2; [by apply plainb_spec|]
    | by apply plain_literal
    | match goal with |- Forall plain (if ?b then _ else _) => destruct b end ].

Lemma plain_format_time hh mm ss us : Forall plain (format_time hh mm ss us).
Proof. unfold format_time. plain_tac. Qed.

Lemma plain_format_offset off : Forall plain (format_offset off).
Proof. destruct off; cbn -[Z.div Z.modulo]; plain_tac. Qed.

Lemma plain_date_isoformat d : Forall plain (date_isoformat d).
Proof. unfold date_isoformat. plain_tac. Qed.

Lemma plain_time_isoformat t : Forall plain (time_isoformat t).
Proof.
  unfold time_isoformat.
  apply Forall_app_2; [apply plain_format_time|apply plain_format_offset].
Qed.

Lemma plain_datetime_isoformat d : Forall plain (datetime_isoformat d).
Proof.
  unfold datetime_isoformat.
  repeat (apply Forall_app_2;
          [first [apply plain_fmt0 | by apply plain_literal | apply plain_format_time]|]).
  apply plain_format_offset.
Qed.

Lemma plain_decimal_str d : Forall plain (decimal_str d).
Proof. destruct d; cbn -[digits int_repr]; plain_tac. Qed.

Lemma plain_uuid_str u : Forall plain (uuid_str u).
Proof. unfold uuid_str, uuid_hex; cbv zeta. plain_tac. Qed.

Lemma plain_datetime_local d : Forall plain (datetime_local d).
Proof.
  pose proof (plain_datetime_isoformat d) as Hd.
  rewrite datetime_isoformat_split in Hd. by apply Forall_app in Hd as [? _].
Qed.

Lemma plain_text_form p t : text_form p = Some t -> Forall plain t.
Proof.
  destruct p; cbn [text_form]; try (intros [= <-]).
  - destruct (dt_utcoffset d) as [[| |]|]; intros [= <-];
      try apply plain_datetime_isoformat.
    apply Forall_app_2; [apply plain_datetime_local|by apply plain_literal].
  - apply Forall_app_2; [apply plain_date_isoformat|by apply plain_literal].
  - apply plain_time_isoformat.
  - apply plain_decimal_str.
  - apply plain_uuid_str.
Qed.

(** ** Writing and reading back a string without escapes *)

Lemma escape_cp_plain c : plain c -> escape_cp c = [c].
Proof.
  intros (Hr & H34 & H92). unfold escape_cp. by repeat settle_if.
Qed.

Lemma encode_basestring_ascii_plain t :
  Forall plain t -> encode_basestring_ascii t = quoted t.
Proof.
  intros Ht. unfold encode_basestring_ascii, quoted. do 2 f_equal.
  induction Ht as [|c t Hc _ IH]; [done|].
  cbn [flat_map]. by rewrite (escape_cp_plain _ Hc), IH.
Qed.

Lemma scanstring_plain t rest :
  Forall plain t -> scanstring (t ++ 34 :: rest) = Ok (t, rest).
Proof.
  induction 1 as [|c t (Hr & H34 & H92) _ IH]; [done|].
  cbn [app scanstring]. repeat settle_if. by rewrite IH.
Qed.

Lemma scan_once_string fuel hook r :
  scan_once (S fuel) hook (34 :: r) = (p <- scanstring r ;; Ok (VStr p.1, p.2)).
Proof. reflexivity. Qed.

Lemma json_loads_quoted t hook :
  Forall plain t -> json_loads (IStr (quoted t)) hook = Ok (VStr t).
Proof.
  intros Ht. unfold json_loads, quoted.
  change (startswith ([34] ++ t ++ [34]) [65279]) with false.
  change (skip_ws ([34] ++ t ++ [34])) with (34 :: t ++ [34]).
  generalize (length ([34] ++ t ++ [34])); intros n.
  replace (2 * n + 2)%nat with (S (2 * n + 1)) by lia.
  rewrite scan_once_string, (scanstring_plain t [] Ht). reflexivity.
Qed.

Lemma iterencode_object default fuel p r :
  iterencode default (S fuel) (VObject p r)
  = (o' <- default (VObject p r) ;; iterencode default fuel o').
Proof. reflexivity. Qed.

Lemma iterencode_str default fuel s :
  iterencode default (S fuel) (VStr s) = Ok (encode_basestring_ascii s).
Proof. reflexivity. Qed.

Lemma default_datetime (d : datetime) :
  JSONEncoder_default (VObject (PDatetime d) None)
  = Ok (VStr (match dt_utcoffset d with
              | Some 0 => datetime_local d ++ T "Z"
              | _ => datetime_isoformat d
              end)).
Proof.
  unfold JSONEncoder_default; cbn [getattr_json isinstance_dates].
  destruct (endswith _ _) eqn:He.
  - apply isoformat_ends_with_utc in He. rewrite He.
    rewrite datetime_isoformat_split, He.
    change (format_offset (Some 0)) with (T "+00:00").
    by replace (slice_to_minus (datetime_local d ++ T "+00:00") 6)
      with (datetime_local d)
      by (symmetry; apply (slice_to_minus_app _ (T "+00:00"))).
  - destruct (dt_utcoffset d) as [[| |]|] eqn:Hoff; try done.
    apply isoformat_ends_with_utc in Hoff. congruence.
Qed.

Lemma default_text_form p t :
  text_form p = Some t -> JSONEncoder_default (VObject p None) = Ok (VStr t).
Proof.
  destruct p; cbn [text_form]; try (intros [= <-]); try reflexivity.
  - rewrite default_datetime.
    by destruct (dt_utcoffset d) as [[| |]|]; intros [= <-].
  - apply default_plain_date.
Qed.

Lemma dumps_text_form p t :
  text_form p = Some t -> dumps (VObject p None) = Ok (quoted t).
Proof.
  intros Ht. unfold dumps, json_dumps.
  change recursion_limit with (S (S 998)).
  rewrite iterencode_object, (default_text_form _ _ Ht).
  cbn [bind]. rewrite iterencode_str.
  by rewrite (encode_basestring_ascii_plain _ (plain_text_form _ _ Ht)).
Qed.

Lemma roundtrip_text_form st p t :
  text_form p = Some t -> roundtrip st (VObject p None) = Ok (VStr t).
Proof.
  intros Ht. unfold roundtrip. rewrite (dumps_text_form _ _ Ht). cbn [bind].
  unfold loads_. rewrite loads_str.
  apply json_loads_quoted, (plain_text_form _ _ Ht).
Qed.

(** ** What the encoder writes for the kinds registered by default *)

(** C1 fails as stated: the decimal 19.99 comes back from
    [loads(dumps(v))] as the text "19.99", which is not the decimal. *)
Lemma roundtrip_loses_decimal :
  roundtrip (@module_registry no_external_codecs)
    (VObject (PDecimal (Finite false 1999 (-2))) None)
  = Ok (VStr (T "19.99"))
  /\ roundtrip (@module_registry no_external_codecs)
       (VObject (PDecimal (Finite false 1999 (-2))) None)
     <> Ok (VObject (PDecimal (Finite false 1999 (-2))) None).
Proof.
  rewrite (roundtrip_text_form _ (PDecimal (Finite false 1999 (-2)))
             (T "19.99") eq_refl).
  split; [reflexivity|discriminate].
Qed.

(** C1, as amended: for a value of a kind registered by default
    (datetime, date, time, decimal, UUID) with text form [t], [dumps] writes
    the JSON string holding [t] and [loads] of it returns [t] as plain text,
    whatever is registered; the value itself is not rebuilt.  The text form
    is that of [text_form]: for a datetime its ISO-8601 text with a final
    +00:00 written Z, for a plain date that of the naive datetime at
    midnight of its day, for a time its ISO-8601 text as it is (a zero
    offset stays +00:00), for a decimal and a UUID their [str]. *)
Theorem loads_dumps_gives_text_form (st : registry) (p : payload) (t : str) :
  text_form p = Some t ->
  dumps (VObject p None) = Ok (quoted t)
  /\ loads_ st (IStr (quoted t)) = Ok (VStr t)
  /\ roundtrip st (VObject p None) = Ok (VStr t)
  /\ roundtrip st (VObject p None) <> Ok (VObject p None).
Proof.
  intros Ht. rewrite (roundtrip_text_form _ _ _ Ht), (dumps_text_form _ _ Ht).
  repeat split; [|discriminate].
  unfold loads_. rewrite loads_str.
  apply json_loads_quoted, (plain_text_form _ _ Ht).
Qed.

Lemma loads_dumps_gives_text_form_witness :
  roundtrip (@module_registry no_external_codecs)
    (VObject (PUUID (mk_uuid 0x12345678123456781234567812345678)) None)
  = Ok (VStr (T "12345678-1234-5678-1234-567812345678")).
Proof.
  exact (proj1 (proj2 (proj2
    (loads_dumps_gives_text_form (@module_registry no_external_codecs)
       (PUUID (mk_uuid 0x12345678123456781234567812345678))
       (T "12345678-1234-5678-1234-567812345678") eq_refl)))).
Defined.

(** C2 fails as stated: [dumps] of the decimal 19.99 is the JSON string
    "19.99", not the envelope text. *)
Lemma dumps_decimal_is_not_an_envelope :
  dumps (VObject (PDecimal (Finite false 1999 (-2))) None) = Ok (Q "'19.99'")
  /\ dumps (VObject (PDecimal (Finite false 1999 (-2))) None)
     <> Ok (Q "{'__type__': 'decimal', '__value__': '19.99'}").
Proof.
  rewrite (dumps_text_form (PDecimal (Finite false 1999 (-2)))
             (T "19.99") eq_refl).
  split; [reflexivity|]. vm_compute. discriminate.
Qed.

Section Envelope.
Context `{ExternalCodecs}.

(** C2, as amended: a value of a kind registered by default is written
    as the bare JSON string of its text form, which starts with a quote
    and so is no envelope; [dumps] of the decimal 19.99 is the string
    "19.99"; and [loads] of the envelope text with marker "decimal" and
    payload "19.99" is the decimal 19.99. *)
Theorem registered_kinds_written_as_bare_text :
  (forall p t, text_form p = Some t ->
     dumps (VObject p None) = Ok (quoted t)
     /\ head (quoted t) = Some 34)
  /\ dumps (VObject (PDecimal (Finite false 1999 (-2))) None)
     = Ok (Q "'19.99'")
  /\ loads_ module_registry
       (IStr (Q "{'__type__': 'decimal', '__value__': '19.99'}"))
     = Ok (VObject (PDecimal (Finite false 1999 (-2))) None).
Proof.
  split; [|split].
  - intros p t Ht. by rewrite (dumps_text_form _ _ Ht).
  - by rewrite (dumps_text_form (PDecimal (Finite false 1999 (-2)))
                  (T "19.99") eq_refl).
  - vm_compute. reflexivity.
Qed.

End Envelope.

Lemma registered_kinds_written_as_bare_text_witness :
  dumps (VObject (PTime (mk_time 10 20 30 0 None)) None)
  = Ok (quoted (T "10:20:30")).
Proof.
  exact (proj1 (proj1 (@registered_kinds_written_as_bare_text no_external_codecs)
                  (PTime (mk_time 10 20 30 0 None)) (T "10:20:30") eq_refl)).
Defined.

(** C3, as amended: a plain date is encoded as the ISO-8601 text of the
    datetime at midnight of that date, YYYY-MM-DD followed by T00:00:00; this
    is what [default] returns and what [dumps] writes as a JSON string. *)
Theorem plain_date_encoded_at_midnight (d : date) :
  JSONEncoder_default (VObject (PDate d) None)
  = Ok (VStr (date_isoformat d ++ T "T00:00:00"))
  /\ dumps (VObject (PDate d) None)
     = Ok (quoted (date_isoformat d ++ T "T00:00:00")).
Proof.
  split; [apply default_plain_date|]. by apply dumps_text_form.
Qed.

(** ** The decode hook *)

Lemma mem_spec k ks : mem k ks = true <-> k ∈ ks.
Proof.
  unfold mem. rewrite existsb_exists, list_elem_of_In. split.
  - intros (x & Hx & Heq). apply bool_decide_eq_true in Heq. by subst.
  - intros Hk. exists k. split; [done|]. by apply bool_decide_eq_true.
Qed.

(** [keys_equal] compares the key set of a dictionary with a set. *)
Lemma keys_equal_spec (d : dict) (ks : list str) :
  keys_equal d ks = true <-> (forall k, k ∈ d.*1 <-> k ∈ ks).
Proof.
  unfold keys_equal. rewrite andb_true_iff, !forallb_forall. split.
  - intros [H1 H2] k. split; intros Hk.
    + apply mem_spec, H1. by apply list_elem_of_In.
    + apply mem_spec, H2. by apply list_elem_of_In.
  - intros Hk. split; intros k Hin; apply mem_spec, Hk; by apply list_elem_of_In.
Qed.

Lemma keys_equal_false (d : dict) (ks : list str) :
  ~ (forall k, k ∈ d.*1 <-> k ∈ ks) -> keys_equal d ks = false.
Proof.
  intros Hne. apply not_true_is_false. by rewrite keys_equal_spec.
Qed.

Lemma dict_get_Some (d : dict) (k : str) : k ∈ d.*1 -> is_Some (dict_get d k).
Proof.
  induction d as [|[k' v] d IH]; cbn.
  - by intros ?%elem_of_nil.
  - unfold str_eqb. case_bool_decide; [by eauto|].
    intros [->|Hk]%elem_of_cons; [done|by apply IH].
Qed.

(** [loads] of an envelope text hands the two-key object to the hook. *)
Lemma scan_once_object fuel hook r :
  scan_once (S fuel) hook (123 :: 34 :: r) = object_loop fuel hook r [].
Proof. reflexivity. Qed.

Lemma object_loop_member fuel hook key v r pairs :
  Forall plain key -> Forall plain v ->
  object_loop (S (S fuel)) hook
    (key ++ 34 :: 58 :: 32 :: 34 :: v ++ 34 :: 44 :: 32 :: 34 :: r) pairs
  = object_loop (S fuel) hook r (pairs ++ [(key, VStr v)]).
Proof.
  intros Hk Hv. cbn [object_loop]. rewrite (scanstring_plain _ _ Hk).
  cbn -[object_loop]. rewrite (scanstring_plain _ _ Hv). reflexivity.
Qed.

Lemma object_loop_last fuel hook key v pairs :
  Forall plain key -> Forall plain v ->
  object_loop (S (S fuel)) hook
    (key ++ 34 :: 58 :: 32 :: 34 :: v ++ [34; 125]) pairs
  = (o <- hook (dict_of_pairs (pairs ++ [(key, VStr v)])) ;; Ok (o, [])).
Proof.
  intros Hk Hv. cbn [object_loop]. rewrite (scanstring_plain _ _ Hk).
  cbn -[object_loop dict_of_pairs]. rewrite (scanstring_plain _ _ Hv).
  reflexivity.
Qed.

Lemma envelope_hook_called (st : registry) (m x : str) :
  Forall plain m -> Forall plain x ->
  loads_ st (IStr (envelope_text m x))
  = object_hook st [(T "__type__", VStr m); (T "__value__", VStr x)].
Proof.
  intros Hm Hx. unfold loads_. rewrite loads_str. unfold json_loads.
  assert (Htext : envelope_text m x
    = 123 :: 34 :: T "__type__" ++ 34 :: 58 :: 32 :: 34 :: m
      ++ 34 :: 44 :: 32 :: 34 :: T "__value__" ++ 34 :: 58 :: 32 :: 34 :: x
      ++ [34; 125]) by reflexivity.
  rewrite Htext.
  change (startswith (123 :: ?r) [65279]) with false.
  change (skip_ws (123 :: ?r)) with (123 :: r).
  cbn [length].
  match goal with |- context [(2 * S (S ?n) + 2)%nat] =>
    replace (2 * S (S n) + 2)%nat with (S (S (S (S (2 * n + 2))))) by lia;
    generalize (2 * n + 2)%nat; intros fuel
  end.
  rewrite scan_once_object.
  rewrite object_loop_member by (done || by apply plain_literal).
  rewrite object_loop_last by (done || by apply plain_literal).
  change (dict_of_pairs ([] ++ [(T "__type__", VStr m)] ++ [(T "__value__", VStr x)]))
    with [(T "__type__", VStr m); (T "__value__", VStr x)].
  by destruct (object_hook st _).
Qed.

(** The hook on an envelope: the decoder registered for the marker, if
    any, applied to the payload. *)
Lemma object_hook_envelope (st : registry) (m : str) (v : value) :
  object_hook st [(T "__type__", VStr m); (T "__value__", v)]
  = match _decoders st !! m with
    | Some decoder => decoder v
    | None => Raise (ValueError
                [VStr (T "Unsupported type"); VType;
                 VDict [(T "__type__", VStr m); (T "__value__", v)]])
    end.
Proof.
  unfold object_hook, getitem.
  assert (keys_equal [(T "__type__", VStr m); (T "__value__", v)]
            [T "__type__"; T "__value__"] = true) as ->
    by (vm_compute; reflexivity).
  assert (dict_get [(T "__type__", VStr m); (T "__value__", v)] (T "__type__")
          = Some (VStr m)) as -> by (vm_compute; reflexivity).
  assert (dict_get [(T "__type__", VStr m); (T "__value__", v)] (T "__value__")
          = Some v) as -> by (vm_compute; reflexivity).
  cbn. by destruct (_decoders st !! m).
Qed.

Section Hook.
Context `{ExternalCodecs}.

(** The markers the module registers. *)
Lemma module_markers (m : str) :
  is_Some (_decoders module_registry !! m) <->
  m ∈ [T "bytes"; T "base64"; T "datetime"; T "date"; T "time";
       T "decimal"; T "uuid"].
Proof.
  unfold module_registry, initial_registry, register_type; cbn [_decoders].
  rewrite !lookup_insert_is_Some, lookup_empty, is_Some_alt.
  rewrite !elem_of_cons, elem_of_nil.
  destruct (decide (T "uuid" = m)), (decide (T "decimal" = m)),
    (decide (T "time" = m)), (decide (T "date" = m)),
    (decide (T "datetime" = m)), (decide (T "bytes" = m)),
    (decide (T "base64" = m)); intuition congruence.
Qed.

(** C4: when the key set of an object is exactly [__type__] and
    [__value__] and no decoder is registered for its marker, the hook
    raises ValueError("Unsupported type", type, o), whose last argument is
    the object, marker included; it does not return the object.  So
    [loads] of the text of an envelope with that marker raises this error,
    as it does for the marker "unknown" with the module's registrations. *)
Theorem unregistered_marker_raises (st : registry) (o : dict) (m : str) :
  (forall k, k ∈ o.*1 <-> k ∈ [T "__type__"; T "__value__"]) ->
  dict_get o (T "__type__") = Some (VStr m) ->
  _decoders st !! m = None ->
  object_hook st o
    = Raise (ValueError [VStr (T "Unsupported type"); VType; VDict o])
  /\ object_hook st o <> Ok (VDict o)
  /\ (forall x, Forall plain m -> Forall plain x ->
        loads_ st (IStr (envelope_text m x))
        = Raise (ValueError
            [VStr (T "Unsupported type"); VType;
             VDict [(T "__type__", VStr m); (T "__value__", VStr x)]]))
  /\ loads_ module_registry
       (IStr (Q "{'__type__': 'unknown', '__value__': 'x'}"))
     = Raise (ValueError
         [VStr (T "Unsupported type"); VType;
          VDict [(T "__type__", VStr (T "unknown"));
                 (T "__value__", VStr (T "x"))]]).
Proof.
  intros Hkeys Hm Hnone.
  assert (object_hook st o
    = Raise (ValueError [VStr (T "Unsupported type"); VType; VDict o])) as ->.
  { unfold object_hook. rewrite (proj2 (keys_equal_spec _ _) Hkeys).
    unfold getitem. rewrite Hm. cbn. by rewrite Hnone. }
  split; [done|]. split; [done|]. split.
  - intros x Hpm Hpx.
    rewrite (envelope_hook_called _ _ _ Hpm Hpx), object_hook_envelope.
    unfold DecoderT in *. by rewrite Hnone.
  - vm_compute. reflexivity.
Qed.

(** C5: when the key set of an object is anything else than
    [__type__] and [__value__], the hook returns the object unchanged; so
    [loads] of [{"a": 1, "b": 2}] is the plain two-key mapping. *)
Theorem other_objects_unchanged (st : registry) (o : dict) :
  ~ (forall k, k ∈ o.*1 <-> k ∈ [T "__type__"; T "__value__"]) ->
  object_hook st o = Ok (VDict o)
  /\ loads_ module_registry (IStr (Q "{'a': 1, 'b': 2}"))
     = Ok (VDict [(T "a", VInt 1); (T "b", VInt 2)]).
Proof.
  intros Hkeys. split.
  - unfold object_hook. by rewrite (keys_equal_false _ _ Hkeys).
  - vm_compute. reflexivity.
Qed.

End Hook.

Lemma unregistered_marker_raises_witness :
  object_hook (@module_registry no_external_codecs)
    [(T "__type__", VStr (T "unknown")); (T "__value__", VStr (T "x"))]
  = Raise (ValueError
      [VStr (T "Unsupported type"); VType;
       VDict [(T "__type__", VStr (T "unknown"));
              (T "__value__", VStr (T "x"))]]).
Proof.
  refine (proj1 (@unregistered_marker_raises no_external_codecs
                   (@module_registry no_external_codecs)
                   [(T "__type__", VStr (T "unknown"));
                    (T "__value__", VStr (T "x"))]
                   (T "unknown") _ eq_refl _)).
  - apply keys_equal_spec. vm_compute. reflexivity.
  - vm_compute. reflexivity.
Defined.

Lemma other_objects_unchanged_witness :
  object_hook (@module_registry no_external_codecs)
    [(T "__type__", VStr (T "decimal")); (T "__value__", VStr (T "1"));
     (T "extra", VNone)]
  = Ok (VDict [(T "__type__", VStr (T "decimal")); (T "__value__", VStr (T "1"));
               (T "extra", VNone)]).
Proof.
  refine (proj1 (@other_objects_unchanged no_external_codecs
                   (@module_registry no_external_codecs) _ _)).
  intros Hk. apply keys_equal_spec in Hk. vm_compute in Hk. discriminate Hk.
Defined.

(** * Further properties of the module *)

(** ** Registration *)

(** X1: registering a marker again silently replaces its decoder:
    the last decoder answers for the marker, while the encode entry of the
    type registered first still names the same marker; every other marker
    and type is left as it was. *)
Theorem register_type_last_wins
    (st : registry) (t1 t2 : pykey) (marker : str)
    (e1 e2 : EncoderT) (d1 d2 : DecoderT) :
  let st1 := register_type t1 marker e1 d1 st in
  let st2 := register_type t2 marker e2 d2 st1 in
  _decoders st2 !! marker = Some d2
  /\ _encoders st2 !! t2 = Some (marker, e2)
  /\ (t1 <> t2 -> _encoders st2 !! t1 = Some (marker, e1))
  /\ (forall m, m <> marker -> _decoders st2 !! m = _decoders st !! m)
  /\ (forall t, t <> t1 -> t <> t2 -> _encoders st2 !! t = _encoders st !! t).
Proof.
  cbn. repeat split.
  - apply lookup_insert_eq.
  - apply lookup_insert_eq.
  - intros Hne. rewrite lookup_insert_ne by done. apply lookup_insert_eq.
  - intros m Hm. by rewrite !lookup_insert_ne.
  - intros t H1 H2. by rewrite !lookup_insert_ne.
Qed.

(** ** The hook on envelopes *)

Lemma object_hook_exact (st : registry) (o : dict) (k v : value) :
  (forall x, x ∈ o.*1 <-> x ∈ [T "__type__"; T "__value__"]) ->
  dict_get o (T "__type__") = Some k ->
  dict_get o (T "__value__") = Some v ->
  object_hook st o
  = (decoder <- decoders_get (_decoders st) k ;;
     match decoder with
     | Some decoder => decoder v
     | None => Raise (ValueError [VStr (T "Unsupported type"); VType; VDict o])
     end).
Proof.
  intros Hk Ht Hv. unfold object_hook, getitem.
  rewrite (proj2 (keys_equal_spec _ _) Hk), Ht. cbn [or_raise bind].
  destruct (decoders_get _ _) as [[d|]|]; cbn [bind]; [|done..].
  by rewrite Hv.
Qed.

Lemma object_hook_registered
    (st : registry) (m : str) (v : value) (decoder : DecoderT) :
  _decoders st !! m = Some decoder ->
  object_hook st [(T "__type__", VStr m); (T "__value__", v)] = decoder v.
Proof.
  intros Hd. rewrite object_hook_envelope. unfold DecoderT in *. by rewrite Hd.
Qed.

(** X2: when the key set of an object is exactly [__type__] and
    [__value__] and a decoder is registered for its text marker, the hook
    returns what that decoder returns on the payload, errors included. *)
Theorem registered_marker_decodes
    (st : registry) (o : dict) (m : str) (v : value) (decoder : DecoderT) :
  (forall x, x ∈ o.*1 <-> x ∈ [T "__type__"; T "__value__"]) ->
  dict_get o (T "__type__") = Some (VStr m) ->
  dict_get o (T "__value__") = Some v ->
  _decoders st !! m = Some decoder ->
  object_hook st o = decoder v.
Proof.
  intros Hk Ht Hv Hd.
  rewrite (object_hook_exact _ _ _ _ Hk Ht Hv). cbn.
  unfold DecoderT in *. by rewrite Hd.
Qed.

Lemma registered_marker_decodes_witness :
  object_hook (@module_registry no_external_codecs)
    [(T "__value__", VStr (T "1.50")); (T "__type__", VStr (T "decimal"))]
  = Ok (VObject (PDecimal (Finite false 150 (-2))) None).
Proof.
  refine (registered_marker_decodes (@module_registry no_external_codecs)
            [(T "__value__", VStr (T "1.50")); (T "__type__", VStr (T "decimal"))]
            (T "decimal") (VStr (T "1.50")) Decimal _ eq_refl eq_refl eq_refl).
  apply keys_equal_spec. vm_compute. reflexivity.
Defined.

(** X3: [loads] of the text of an envelope with text marker and payload
    returns what the decoder registered for the marker returns on the
    payload; a decoder passed to [register_type] is used by the next
    [loads]. *)
Theorem loads_envelope_decodes
    (st : registry) (t : pykey) (m x : str)
    (encoder : EncoderT) (decoder : DecoderT) :
  Forall plain m -> Forall plain x ->
  (_decoders st !! m = Some decoder ->
   loads_ st (IStr (envelope_text m x)) = decoder (VStr x))
  /\ loads_ (register_type t m encoder decoder st) (IStr (envelope_text m x))
     = decoder (VStr x).
Proof.
  intros Hm Hx. rewrite !(envelope_hook_called _ _ _ Hm Hx). split.
  - apply object_hook_registered.
  - apply object_hook_registered. apply lookup_insert_eq.
Qed.

Lemma loads_envelope_decodes_witness :
  loads_ (register_type (Class_ "builtins.set") (T "set")
            (fun o => Ok o) (fun v => Ok (VList [v]))
            (@module_registry no_external_codecs))
    (IStr (Q "{'__type__': 'set', '__value__': 'abc'}"))
  = Ok (VList [VStr (T "abc")]).
Proof.
  refine (proj2 (loads_envelope_decodes (@module_registry no_external_codecs)
                   (Class_ "builtins.set") (T "set") (T "abc")
                   (fun o => Ok o) (fun v => Ok (VList [v])) _ _));
    by apply plain_literal.
Defined.

(** X4: a marker that is not text.  The lookup hashes it first, so a
    list, a dictionary, an instance of a class without [__hash__] and a
    decimal that is a signaling NaN make the hook raise TypeError; any other
    marker (None, a boolean, an integer, bytes, a date, a time, a UUID, any
    other decimal, an instance hashed by identity) finds no decoder and
    ends in the Unsupported-type ValueError.  A nested decimal envelope
    holding sNaN as the marker of an envelope is such a case for [loads]. *)
Theorem marker_that_is_not_text (st : registry) (o : dict) (k v : value) :
  (forall x, x ∈ o.*1 <-> x ∈ [T "__type__"; T "__value__"]) ->
  dict_get o (T "__type__") = Some k ->
  dict_get o (T "__value__") = Some v ->
  match k with
  | VStr _ | VObject (PPromise _) _ => True
  | VList _ => object_hook st o = Raise (TypeError "unhashable type: 'list'")
  | VDict _ => object_hook st o = Raise (TypeError "unhashable type: 'dict'")
  | VObject (PUnhashable cls) _ =>
      object_hook st o = Raise (TypeError ("unhashable type: '" ++ cls ++ "'"))
  | VObject (PDecimal (NaN _ true _)) _ =>
      object_hook st o = Raise (TypeError "Cannot hash a signaling NaN value")
  | _ => object_hook st o
         = Raise (ValueError [VStr (T "Unsupported type"); VType; VDict o])
  end.
Proof.
  intros Hk Ht Hv. rewrite (object_hook_exact _ _ _ _ Hk Ht Hv).
  destruct k as [| | | | | | | |p r]; try done.
  destruct p as [| | |d| | | |]; try done.
  destruct d as [| |sign signaling payload]; try done.
  by destruct signaling.
Qed.

Lemma marker_that_is_not_text_witness :
  loads_ (@module_registry no_external_codecs)
    (IStr (Q "{'__type__': {'__type__': 'decimal', '__value__': 'sNaN'}, '__value__': 1}"))
  = Raise (TypeError "Cannot hash a signaling NaN value")
  /\ loads_ (@module_registry no_external_codecs)
       (IStr (Q "{'__type__': [], '__value__': 1}"))
     = Raise (TypeError "unhashable type: 'list'")
  /\ object_hook (@module_registry no_external_codecs)
       [(T "__type__", VObject (PDecimal (NaN false true 0)) None);
        (T "__value__", VInt 1)]
     = Raise (TypeError "Cannot hash a signaling NaN value")
  /\ object_hook (@module_registry no_external_codecs)
       [(T "__type__", VNone); (T "__value__", VInt 1)]
     = Raise (ValueError
         [VStr (T "Unsupported type"); VType;
          VDict [(T "__type__", VNone); (T "__value__", VInt 1)]]).
Proof.
  split; [vm_compute; reflexivity|]. split; [vm_compute; reflexivity|]. split.
  - refine (marker_that_is_not_text (@module_registry no_external_codecs)
              [(T "__type__", VObject (PDecimal (NaN false true 0)) None);
               (T "__value__", VInt 1)]
              (VObject (PDecimal (NaN false true 0)) None) (VInt 1)
              _ eq_refl eq_refl).
    apply keys_equal_spec. vm_compute. reflexivity.
  - refine (marker_that_is_not_text (@module_registry no_external_codecs)
              [(T "__type__", VNone); (T "__value__", VInt 1)]
              VNone (VInt 1) _ eq_refl eq_refl).
    apply keys_equal_spec. vm_compute. reflexivity.
Defined.

(** ** Outcomes of the encoder *)

(** X5: [default] has three outcomes only: the result of [__json__] when
    the value has one; text, for a value without it; or the TypeError naming
    the class of the value.  Without [__json__] it never returns a
    dictionary, so it builds no envelope. *)
Theorem default_outcomes (o : value) :
  match JSONEncoder_default o with
  | Ok v => getattr_json o = Some v \/ (getattr_json o = None /\ exists t, v = VStr t)
  | Raise e =>
      getattr_json o = None
      /\ e = TypeError ("Object of type " ++ class_name o
                        ++ " is not JSON serializable")
  end.
Proof.
  unfold JSONEncoder_default.
  destruct (getattr_json o) as [r|] eqn:Hr; [by left|].
  destruct (isinstance_dates o) as [dd|]; [right; eauto|].
  destruct (isinstance_times o) as [t|]; [right; eauto|].
  destruct (isinstance_textual o) as [t|]; [right; eauto|].
  done.
Qed.

(** X6: what [dumps] writes for an object without [__json__], when it
    writes anything, is one JSON string literal: the text returned by
    [default], escaped and quoted; it starts with a quote, not a brace. *)
Theorem dumps_object_is_string_literal (p : payload) (text : str) :
  dumps (VObject p None) = Ok text ->
  exists t, JSONEncoder_default (VObject p None) = Ok (VStr t)
            /\ text = encode_basestring_ascii t
            /\ head text = Some 34.
Proof.
  unfold dumps, json_dumps. change recursion_limit with (S (S 998)).
  rewrite iterencode_object.
  assert (Ho : match JSONEncoder_default (VObject p None) with
               | Ok v => exists t, v = VStr t
               | Raise _ => True
               end).
  { unfold JSONEncoder_default. cbn [getattr_json].
    destruct (isinstance_dates _) as [dd|]; [eauto|].
    destruct (isinstance_times _) as [t|]; [eauto|].
    by destruct (isinstance_textual _) as [t|]; [eauto|]. }
  destruct (JSONEncoder_default (VObject p None)) as [v|e]; [|done].
  destruct Ho as [t ->].
  cbn [bind]. rewrite iterencode_str. intros [= <-]. by exists t.
Qed.

Lemma dumps_object_is_string_literal_witness :
  exists t, JSONEncoder_default (VObject (PPromise (T "hi")) None) = Ok (VStr t)
            /\ Q "'hi'" = encode_basestring_ascii t
            /\ head (Q "'hi'") = Some 34.
Proof.
  apply (dumps_object_is_string_literal (PPromise (T "hi")) (Q "'hi'")).
  vm_compute. reflexivity.
Defined.

Lemma dumps_bytes b :
  dumps (VBytes b)
  = Raise (TypeError "Object of type bytes is not JSON serializable").
Proof. reflexivity. Qed.

(** X7: a plain date and the naive datetime at midnight of the same day
    are written identically, by [default] and by [dumps], although they are
    different values. *)
Theorem date_written_as_midnight_datetime (d : date) :
  let dt := mk_datetime (year d) (month d) (day d) 0 0 0 0 None in
  JSONEncoder_default (VObject (PDate d) None)
  = JSONEncoder_default (VObject (PDatetime dt) None)
  /\ dumps (VObject (PDate d) None) = dumps (VObject (PDatetime dt) None)
  /\ VObject (PDate d) None <> VObject (PDatetime dt) None.
Proof.
  intros dt.
  assert (Hdt : text_form (PDatetime dt) = Some (date_isoformat d ++ T "T00:00:00")).
  { subst dt. cbn [text_form dt_utcoffset]. by rewrite midnight_isoformat. }
  split; [|split; [|done]].
  - by rewrite (default_text_form _ _ Hdt), default_plain_date.
  - by rewrite (dumps_text_form _ _ Hdt), (dumps_text_form (PDate d) _ eq_refl).
Qed.

(** X8: the Z rewriting is for dates and datetimes only: a time whose UTC
    offset is zero is written with +00:00 at its end. *)
Theorem time_offset_not_rewritten (t : time) :
  t_utcoffset t = Some 0 ->
  JSONEncoder_default (VObject (PTime t) None)
  = Ok (VStr (format_time (t_hour t) (t_minute t) (t_second t)
                          (t_microsecond t) ++ T "+00:00"))
  /\ dumps (VObject (PTime t) None)
     = Ok (quoted (format_time (t_hour t) (t_minute t) (t_second t)
                               (t_microsecond t) ++ T "+00:00")).
Proof.
  intros Hoff.
  assert (Ht : text_form (PTime t)
               = Some (format_time (t_hour t) (t_minute t) (t_second t)
                                   (t_microsecond t) ++ T "+00:00")).
  { cbn [text_form]. unfold time_isoformat. by rewrite Hoff. }
  by rewrite (default_text_form _ _ Ht), (dumps_text_form _ _ Ht).
Qed.

Lemma time_offset_not_rewritten_witness :
  JSONEncoder_default (VObject (PTime (mk_time 10 20 30 0 (Some 0))) None)
  = Ok (VStr (T "10:20:30+00:00")).
Proof.
  exact (proj1 (time_offset_not_rewritten (mk_time 10 20 30 0 (Some 0)) eq_refl)).
Defined.

(** ** [dumps] followed by [loads] *)

Lemma dumps_two_texts (k1 k2 s1 s2 : str) :
  dumps (VDict [(k1, VStr s1); (k2, VStr s2)])
  = Ok (T "{" ++ encode_basestring_ascii k1 ++ T ": "
        ++ encode_basestring_ascii s1 ++ T ", "
        ++ encode_basestring_ascii k2 ++ T ": "
        ++ encode_basestring_ascii s2 ++ T "}").
Proof.
  unfold dumps, json_dumps. change recursion_limit with (S (S 998)).
  cbn [iterencode mapM bind fst snd join]. by rewrite <- !app_assoc.
Qed.

Lemma dumps_envelope_dict (m x : str) :
  Forall plain m -> Forall plain x ->
  dumps (VDict [(T "__type__", VStr m); (T "__value__", VStr x)])
  = Ok (envelope_text m x).
Proof.
  intros Hm Hx. rewrite dumps_two_texts.
  rewrite !encode_basestring_ascii_plain by (done || by apply plain_literal).
  unfold quoted, envelope_text. rewrite <- !app_assoc. reflexivity.
Qed.

(** X9: an ordinary dictionary whose keys are exactly [__type__] and
    [__value__] does not survive [loads(dumps(d))]: it is written as the text
    of an envelope and read back as one, so the result is what the decoder
    registered for the marker returns, or the Unsupported-type error. *)
Theorem reserved_keys_are_decoded (st : registry) (m x : str) :
  Forall plain m -> Forall plain x ->
  roundtrip st (VDict [(T "__type__", VStr m); (T "__value__", VStr x)])
  = match _decoders st !! m with
    | Some decoder => decoder (VStr x)
    | None => Raise (ValueError
                [VStr (T "Unsupported type"); VType;
                 VDict [(T "__type__", VStr m); (T "__value__", VStr x)]])
    end.
Proof.
  intros Hm Hx. unfold roundtrip. rewrite (dumps_envelope_dict _ _ Hm Hx).
  cbn [bind]. by rewrite (envelope_hook_called _ _ _ Hm Hx), object_hook_envelope.
Qed.

Lemma reserved_keys_are_decoded_witness :
  roundtrip (@module_registry no_external_codecs)
    (VDict [(T "__type__", VStr (T "decimal")); (T "__value__", VStr (T "7"))])
  = Ok (VObject (PDecimal (Finite false 7 0)) None).
Proof.
  rewrite (reserved_keys_are_decoded (@module_registry no_external_codecs)
             (T "decimal") (T "7"))
    by (by apply plain_literal).
  vm_compute. reflexivity.
Defined.

Lemma dumps_plain_text (t : str) :
  Forall plain t -> dumps (VStr t) = Ok (quoted t).
Proof.
  intros Ht. unfold dumps, json_dumps. change recursion_limit with (S 999).
  by rewrite iterencode_str, (encode_basestring_ascii_plain _ Ht).
Qed.

(** X10: text of printable ASCII without quote or backslash survives
    [loads(dumps(t))] under any registrations; an object of a kind handled
    by the encoder comes back as the same text as its text form does. *)
Theorem plain_text_round_trips (st : registry) (t : str) :
  Forall plain t ->
  dumps (VStr t) = Ok (quoted t)
  /\ roundtrip st (VStr t) = Ok (VStr t)
  /\ (forall p, text_form p = Some t ->
        roundtrip st (VObject p None) = roundtrip st (VStr t)).
Proof.
  intros Ht.
  assert (Hrt : roundtrip st (VStr t) = Ok (VStr t)).
  { unfold roundtrip. rewrite (dumps_plain_text _ Ht). cbn [bind].
    unfold loads_. rewrite loads_str. by apply json_loads_quoted. }
  split; [by apply dumps_plain_text|]. split; [exact Hrt|].
  intros p Hp. by rewrite (roundtrip_text_form _ _ _ Hp), Hrt.
Qed.

Lemma plain_text_round_trips_witness :
  roundtrip (@module_registry no_external_codecs) (VStr (T "2024-01-01T00:00:00"))
  = Ok (VStr (T "2024-01-01T00:00:00")).
Proof.
  refine (proj1 (proj2 (plain_text_round_trips
                          (@module_registry no_external_codecs)
                          (T "2024-01-01T00:00:00") _))).
  by apply plain_literal.
Defined.

(** ** The text written by [dumps] as bytes *)

Lemma utf8_encode_decode_aux (n : nat) :
  forall b s, (length b <= n)%nat -> UTF8.decode b = Some s -> UTF8.encode s = Some b.
Proof.
  induction n as [|n IH]; intros b s Hlen.
  - destruct b; [|cbn in Hlen; lia]. by intros [= <-].
  - destruct b as [|b0 r0]; [by intros [= <-]|].
    cbn [UTF8.decode]. cbn [length] in Hlen.
    destruct ((0 <=? b0) && (b0 <? 128)) eqn:H1.
    { destruct (UTF8.decode r0) as [s'|] eqn:Hd; intros [= <-].
      cbn [UTF8.encode]. rewrite (IH r0 s') by (done || lia).
      unfold UTF8.encode_cp. revert H1. rewrite andb_true_iff, Z.leb_le, Z.ltb_lt.
      intros [? ?]. by repeat settle_if. }
    destruct ((194 <=? b0) && (b0 <? 224)) eqn:H2.
    { destruct r0 as [|b1 r1]; [done|]. cbv beta iota.
      destruct (UTF8.is_cont b1) eqn:Hc1; [|done].
      destruct (UTF8.decode r1) as [s'|] eqn:Hd; intros [= <-].
      cbn [UTF8.encode]. cbn [length] in Hlen.
      rewrite (IH r1 s') by (done || lia).
      unfold UTF8.is_cont in Hc1. revert H2 Hc1.
      rewrite !andb_true_iff, !Z.leb_le, !Z.ltb_lt. intros [? ?] [? ?].
      unfold UTF8.encode_cp. repeat settle_if. cbn [app].
      do 2 f_equal; [|f_equal]; Z.div_mod_to_equations; lia. }
    destruct ((224 <=? b0) && (b0 <? 240)) eqn:H3.
    { destruct r0 as [|b1 [|b2 r2]]; [done..|]. cbv beta iota zeta.
      match goal with |- context [if ?c then _ else None] =>
        destruct c eqn:Hc end; [|done].
      destruct (UTF8.decode r2) as [s'|] eqn:Hd; intros [= <-].
      cbn [UTF8.encode]. cbn [length] in Hlen.
      rewrite (IH r2 s') by (done || lia).
      unfold UTF8.is_cont in Hc. revert H3 Hc.
      rewrite !andb_true_iff, negb_true_iff, andb_false_iff,
        !Z.leb_le, !Z.ltb_lt, Z.leb_gt, Z.ltb_ge.
      intros [? ?] [[[[? ?] [? ?]] ?] ?].
      unfold UTF8.encode_cp. repeat settle_if. cbn [app].
      do 2 f_equal; [|f_equal; [|f_equal]]; Z.div_mod_to_equations; lia. }
    destruct ((240 <=? b0) && (b0 <? 248)) eqn:H4; [|done].
    destruct r0 as [|b1 [|b2 [|b3 r3]]]; [done..|]. cbv beta iota zeta.
    match goal with |- context [if ?c then _ else None] =>
      destruct c eqn:Hc end; [|done].
    destruct (UTF8.decode r3) as [s'|] eqn:Hd; intros [= <-].
    cbn [UTF8.encode]. cbn [length] in Hlen.
    rewrite (IH r3 s') by (done || lia).
    unfold UTF8.is_cont in Hc. revert H4 Hc.
    rewrite !andb_true_iff, !Z.leb_le, !Z.ltb_lt.
    intros [? ?] [[[[[? ?] [? ?]] [? ?]] ?] ?].
    unfold UTF8.encode_cp. repeat settle_if. cbn [app].
    do 2 f_equal; [|f_equal; [|f_equal; [|f_equal]]]; Z.div_mod_to_equations; lia.
Qed.

Lemma utf8_encode_decode b s :
  UTF8.decode b = Some s -> UTF8.encode s = Some b.
Proof. by apply (utf8_encode_decode_aux (length b)). Qed.
Lemma ascii_literal (s : str) :
  forallb (fun c => (0 <=? c) && (c <? 128)) s = true -> ascii_only s.
Proof.
  rewrite forallb_forall. intros Hs. apply Forall_forall. intros c Hc.
  apply list_elem_of_In, Hs in Hc. revert Hc. zbool.
Qed.

Lemma ascii_plain s : Forall plain s -> ascii_only s.
Proof. intros Hs. eapply Forall_impl; [exact Hs|]. unfold plain. cbn. lia. Qed.

Lemma ascii_hexn w v : ascii_only (hexn w v).
Proof. apply ascii_plain, plain_hexn. Qed.

Lemma ascii_escape_cp c : ascii_only (escape_cp c).
Proof.
  unfold escape_cp.
  repeat match goal with
         | |- ascii_only (if ?b then _ else _) => destruct b eqn:?
         end.
  all: try (by apply ascii_literal).
  all: try (repeat (apply Forall_app_2;
                    [first [by apply ascii_literal|apply ascii_hexn]|]);
            apply ascii_hexn).
  repeat constructor;
    match goal with H : (32 <=? c) && _ = true |- _ => revert H end; zbool.
Qed.

Lemma ascii_escaped s : ascii_only (flat_map escape_cp s).
Proof.
  induction s as [|c s IH]; cbn [flat_map]; [constructor|].
  apply Forall_app_2; [apply ascii_escape_cp|apply IH].
Qed.

Lemma ascii_encode_basestring s : ascii_only (encode_basestring_ascii s).
Proof.
  unfold encode_basestring_ascii.
  apply Forall_app_2; [by apply ascii_literal|].
  apply Forall_app_2; [apply ascii_escaped|by apply ascii_literal].
Qed.

Lemma ascii_join sep items :
  ascii_only sep -> Forall ascii_only items -> ascii_only (join sep items).
Proof.
  intros Hsep. induction 1 as [|x items Hx Hitems IH]; [constructor|].
  cbn [join]. destruct items; [done|].
  apply Forall_app_2; [done|]. apply Forall_app_2; [done|apply IH].
Qed.

Lemma mapM_Forall {A B} (f : A -> result B) (P : B -> Prop) l items :
  (forall a b, f a = Ok b -> P b) -> mapM f l = Ok items -> Forall P items.
Proof.
  intros Hf. revert items. induction l as [|a l IH]; intros items; cbn [mapM].
  - intros [= <-]. constructor.
  - destruct (f a) as [b|] eqn:Hb; [|done]. cbn [bind].
    destruct (mapM f l) as [bs|]; [|done]. cbn [bind]. intros [= <-].
    constructor; [by eapply Hf|by apply IH].
Qed.

Ltac ascii_tac :=
  unfold ascii_only;
  repeat match goal with
         | |- Forall _ (encode_basestring_ascii _) => apply ascii_encode_basestring
         | |- Forall _ (flat_map escape_cp _) => apply ascii_escaped
         | |- Forall _ (T _) => by apply ascii_literal
         | |- Forall _ (_ ++ _) => apply Forall_app_2
         | |- Forall _ (_ :: _) => apply Forall_cons_2; [by compute|]
         | |- Forall _ [] => apply Forall_nil_2
         end.

Lemma ascii_iterencode default fuel :
  forall o text, iterencode default fuel o = Ok text -> ascii_only text.
Proof.
  induction fuel as [|fuel IH]; intros o text; [done|].
  destruct o as [|[]| | | | | | |]; cbn [iterencode];
    try (intros Heq; injection Heq as <-; first [by apply ascii_literal|idtac]).
  - apply ascii_plain, plain_int_repr.
  - apply ascii_encode_basestring.
  - destruct (mapM _ l) as [items|] eqn:Hitems; [|done]. cbn [bind].
    intros Heq; injection Heq as <-. ascii_tac.
    apply ascii_join; [by apply ascii_literal|].
    eapply mapM_Forall; [|exact Hitems]. apply IH.
  - destruct (mapM _ d) as [items|] eqn:Hitems; [|done]. cbn [bind].
    intros Heq; injection Heq as <-. ascii_tac.
    apply ascii_join; [by apply ascii_literal|].
    eapply mapM_Forall; [|exact Hitems]. cbn beta. intros [k v] b.
    destruct (iterencode default fuel (k, v).2) as [tv|] eqn:Hv; [|done].
    cbn [bind]. intros Heq; injection Heq as <-. ascii_tac. by eapply IH.
  - destruct (default (VBytes b)) as [o'|]; [|done]. apply IH.
  - destruct (default VType) as [o'|]; [|done]. apply IH.
  - destruct (default (VObject p reducer)) as [o'|]; [|done]. apply IH.
Qed.

Lemma dumps_ascii v text : dumps v = Ok text -> ascii_only text.
Proof. unfold dumps, json_dumps. apply ascii_iterencode. Qed.
(** X11: whatever [dumps] writes is ASCII text, equal to its own UTF-8
    encoding; so [loads] of these bytes (with [decode_bytes] set), of a
    [bytearray] or of a memory view of them hands the parser the very text
    that [dumps] wrote. *)
Theorem dumps_text_travels_as_bytes
    (_loads : input -> (dict -> result value) -> result value)
    (hook : dict -> result value) (v : value) (text : str) (flag : bool) :
  dumps v = Ok text ->
  ascii_only text
  /\ UTF8.encode text = Some text
  /\ loads (IBytes text) _loads true hook = _loads (IStr text) hook
  /\ loads (IByteArray text) _loads flag hook = _loads (IStr text) hook
  /\ loads (IMemoryView text) _loads flag hook = _loads (IStr text) hook.
Proof.
  intros Ha%dumps_ascii.
  pose proof (utf8_encode_ascii _ Ha) as He.
  pose proof (utf8_decode_encode _ _ He) as Hdec.
  split; [exact Ha|]. split; [exact He|].
  unfold loads, decode_utf8. rewrite Hdec. cbn [or_raise bind].
  split; [reflexivity|]. split; reflexivity.
Qed.

Lemma dumps_text_travels_as_bytes_witness :
  loads (IMemoryView (Q "['2024-01-01T00:00:00', 'caf\u00e9']")) json_loads false
    (object_hook (@module_registry no_external_codecs))
  = json_loads (IStr (Q "['2024-01-01T00:00:00', 'caf\u00e9']"))
      (object_hook (@module_registry no_external_codecs)).
Proof.
  refine (proj2 (proj2 (proj2 (proj2
    (dumps_text_travels_as_bytes json_loads
       (object_hook (@module_registry no_external_codecs))
       (VList [VObject (PDate (mk_date 2024 1 1)) None;
               VStr [99; 97; 102; 233]])
       (Q "['2024-01-01T00:00:00', 'caf\u00e9']") false _))))).
  vm_compute. reflexivity.
Defined.

(** ** The decoders registered by the module *)

Lemma hex_value_hex_digit d : 0 <= d < 16 -> hex_value (hex_digit d) = Some d.
Proof.
  intros Hd. unfold hex_digit, hex_value.
  destruct (d <? 10) eqn:E; revert E; rewrite ?Z.ltb_lt, ?Z.ltb_ge; intros E;
    repeat settle_if; f_equal; lia.
Qed.

Lemma int_of_hex_app acc a b :
  int_of_hex acc (a ++ b)
  = match int_of_hex acc a with Some x => int_of_hex x b | None => None end.
Proof.
  revert acc; induction a as [|c a IH]; intros acc; cbn [app int_of_hex]; [done|].
  destruct (hex_value c); [apply IH|done].
Qed.

Lemma int_of_hex_hexn w :
  forall v acc, 0 <= v < 16 ^ Z.of_nat w ->
    int_of_hex acc (hexn w v) = Some (acc * 16 ^ Z.of_nat w + v).
Proof.
  induction w as [|w IH]; intros v acc Hv.
  - cbn in *. f_equal. lia.
  - rewrite Nat2Z.inj_succ, Z.pow_succ_r in * by lia.
    cbn [hexn]. rewrite int_of_hex_app.
    rewrite (IH (v / 16) acc) by (Z.div_mod_to_equations; nia).
    cbn [int_of_hex]. rewrite hex_value_hex_digit by (Z.div_mod_to_equations; lia).
    f_equal. Z.div_mod_to_equations. nia.
Qed.

Lemma hexn_length w v : length (hexn w v) = w.
Proof.
  revert v; induction w as [|w IH]; intros v; cbn [hexn]; [done|].
  rewrite length_app, IH. cbn. lia.
Qed.

Lemma hex_digit_is_hex d :
  0 <= d < 16 -> is_Some (hex_value (hex_digit d)) /\ hex_digit d <> 45.
Proof.
  intros Hd. rewrite (hex_value_hex_digit _ Hd). split; [by eexists|].
  unfold hex_digit. destruct (d <? 10) eqn:E; revert E; zbool.
Qed.

Lemma hexn_digits w v :
  Forall (fun c => is_Some (hex_value c) /\ c <> 45) (hexn w v).
Proof.
  revert v; induction w as [|w IH]; intros v; cbn [hexn]; [constructor|].
  apply Forall_app_2; [apply IH|].
  constructor; [|constructor]. apply hex_digit_is_hex. Z.div_mod_to_equations; lia.
Qed.

Lemma filter_no_hyphen (l : list Z) :
  Forall (fun c => c <> 45) l -> filter (fun c => c <> 45) l = l.
Proof.
  induction 1 as [|c l Hc _ IH]; [done|].
  rewrite filter_cons_True by done. by rewrite IH.
Qed.

Lemma UUID_of_hex (u : uuid) :
  0 <= uuid_int u < 2 ^ 128 ->
  UUID (VDict [(T "hex", VStr (uuid_hex u))]) = Ok (VObject (PUUID u) None).
Proof.
  intros Hu. destruct u as [v]. cbn [uuid_int] in Hu. unfold UUID, uuid_hex.
  cbn [uuid_int].
  change (str_eqb (T "hex") (T "hex")) with true. cbv beta iota.
  pose proof (hexn_digits 32 v) as Hd.
  assert (forallb (fun c => bool_decide (is_Some (hex_value c)) || (c =? 45))
            (hexn 32 v) = true) as ->.
  { apply forallb_forall. intros c Hc%list_elem_of_In.
    rewrite Forall_forall in Hd. destruct (Hd c Hc) as [Hs _].
    by rewrite (bool_decide_eq_true_2 _ Hs). }
  assert (filter (fun c => c <> 45) (hexn 32 v) = hexn 32 v) as ->.
  { apply filter_no_hyphen. eapply Forall_impl; [exact Hd|]. by intros c [_ ?]. }
  rewrite hexn_length. cbn [Nat.eqb].
  rewrite int_of_hex_hexn by (change (16 ^ Z.of_nat 32) with (2 ^ 128); lia).
  reflexivity.
Qed.

Lemma parse_uint_acc (u : Decimal.uint) (acc : positive) :
  fold_left (fun a c => 10 * a + (c - 48)) (T (NilEmpty.string_of_uint u)) (Z.pos acc)
  = Z.pos (Pos.of_uint_acc u acc).
Proof.
  revert acc; induction u; intros acc; cbn [NilEmpty.string_of_uint Pos.of_uint_acc];
    [reflexivity|..];
    change (T (String ?a ?s)) with (ch a :: T s); cbn [fold_left];
    match goal with |- context [ch ?a] =>
      let v := eval vm_compute in (ch a) in change (ch a) with v end;
    match goal with |- fold_left _ _ ?x = Z.pos (Pos.of_uint_acc _ ?p) =>
      replace x with (Z.pos p) by lia end; apply IHu.
Qed.

Lemma parse_uint (u : Decimal.uint) :
  int_of_digits (T (NilEmpty.string_of_uint u)) = Z.of_N (Pos.of_uint u).
Proof.
  unfold int_of_digits.
  induction u; cbn [NilEmpty.string_of_uint Pos.of_uint]; [reflexivity|..];
    change (T (String ?a ?s)) with (ch a :: T s); cbn [fold_left];
    [exact IHu|..];
    match goal with |- fold_left _ _ ?x = Z.of_N (N.pos (Pos.of_uint_acc _ ?p)) =>
      change x with (Z.pos p) end; apply parse_uint_acc.
Qed.

Lemma parse_uint_zero (u : Decimal.uint) :
  int_of_digits (T (NilZero.string_of_uint u)) = Z.of_N (Pos.of_uint u).
Proof. destruct u; try apply parse_uint. reflexivity. Qed.

Lemma int_of_digits_digits (c : N) : int_of_digits (digits c) = Z.of_N c.
Proof.
  unfold digits. rewrite parse_uint_zero.
  f_equal. apply DecimalN.Unsigned.of_to.
Qed.

Lemma int_of_digits_int_repr (n : Z) : 0 <= n -> int_of_digits (int_repr n) = n.
Proof.
  intros Hn. rewrite <- (DecimalZ.of_to n) at 2. unfold int_repr.
  destruct n as [|p|p]; [reflexivity| |lia].
  cbn [Z.to_int NilZero.string_of_int Z.of_int]. apply parse_uint_zero.
Qed.

Lemma int_repr_neg (p : positive) : int_repr (Z.neg p) = 45 :: int_repr (Z.pos p).
Proof. reflexivity. Qed.

Lemma digits_all_digits (c : N) : all_digits (digits c).
Proof.
  unfold digits, NilZero.string_of_uint.
  destruct (N.to_uint c); try apply uint_digits. repeat constructor; by compute.
Qed.

Lemma digits_nonempty (c : N) : digits c <> [].
Proof.
  unfold digits, NilZero.string_of_uint.
  destruct c as [|p]; [done|]. cbn [N.to_uint].
  pose proof (DecimalPos.Unsigned.of_to p) as Hp.
  destruct (Pos.to_uint p); try done.
Qed.

Lemma span_digits (ds rest : str) :
  all_digits ds ->
  match rest with [] => True | c :: _ => is_digit c = false end ->
  span is_digit (ds ++ rest) = (ds, rest).
Proof.
  intros Hds Hrest. induction Hds as [|c ds Hc _ IH]; cbn [app span].
  - destruct rest as [|c rest]; [done|]. cbn [span]. by rewrite Hrest.
  - unfold is_digit at 1. repeat settle_if. by rewrite IH.
Qed.

Lemma int_of_digits_app (a b : str) :
  int_of_digits (a ++ b)
  = int_of_digits a * 10 ^ Z.of_nat (length b) + int_of_digits b.
Proof.
  unfold int_of_digits. rewrite fold_left_app.
  generalize (fold_left (fun acc c => 10 * acc + (c - 48)) a 0). intros x.
  revert x. induction b as [|c b IH]; intros x.
  - cbn. lia.
  - cbn [fold_left length]. rewrite IH, (IH (10 * 0 + (c - 48))).
    rewrite Nat2Z.inj_succ, Z.pow_succ_r by lia. lia.
Qed.

Lemma int_of_digits_zeros (n : nat) (ds : str) :
  int_of_digits (replicate n 48 ++ ds) = int_of_digits ds.
Proof.
  induction n as [|n IH]; [done|].
  cbn [replicate app]. unfold int_of_digits in *. cbn [fold_left]. exact IH.
Qed.

Lemma sign_match_digit (A : Type) (d : Z) (rest : str) (a b : str -> A) (c : A) :
  48 <= d <= 57 ->
  match d :: rest with
  | 45 :: r => a r
  | 43 :: r => b r
  | _ => c
  end = c.
Proof.
  intros Hd. destruct d as [|p|p]; try reflexivity.
  do 6 (destruct p as [p|p|]; try reflexivity); lia.
Qed.

Lemma span_all_digits (ds : str) : all_digits ds -> span is_digit ds = (ds, []).
Proof.
  intros Hds. rewrite <- (app_nil_r ds) at 1. by apply span_digits.
Qed.

Ltac span_step :=
  match goal with
  | |- context [span is_digit (?d :: ?l ++ ?r)] =>
      change (d :: l ++ r) with ((d :: l) ++ r)
  | _ => idtac
  end;
  match goal with
  | |- context [span is_digit (?l ++ ?r)] =>
      rewrite (span_digits l r) by (done || by constructor)
  | |- context [span is_digit ?l] =>
      rewrite (span_all_digits l) by (done || by constructor)
  end.

Lemma decimal_of_number (s : bool) (ip : str) (f : option str)
    (e : option (bool * str)) :
  all_digits ip -> ip <> [] ->
  (forall fp, f = Some fp -> all_digits fp) ->
  (forall neg ds, e = Some (neg, ds) -> all_digits ds /\ ds <> []) ->
  decimal_of_str (sign_text s ++ ip ++ frac_text f ++ exp_text e)
  = Ok (Finite s (Z.to_N (int_of_digits (ip ++ default [] f)))
               (exp_value e - Z.of_nat (length (default [] f)))).
Proof.
  intros Hip Hne Hf He. unfold decimal_of_str.
  destruct Hip as [|d ip Hd Hip]; [done|]. clear Hne.
  assert (Hall : all_digits (d :: ip)) by by constructor.
  destruct s; cbn [sign_text]; try change (T "-") with [45]; cbn [app];
    [cbv beta iota|rewrite (sign_match_digit _ d _ _ _ _ Hd); cbv beta iota].
  all: destruct f as [fp|]; cbn [frac_text default app];
    [pose proof (Hf fp eq_refl) as Hfp|].
  all: destruct e as [[[] ds]|]; cbn [exp_text exp_value app];
    try (destruct (He _ ds eq_refl) as [Hds Hdne]).
  all: span_step; cbv beta iota.
  all: try (span_step; cbv beta iota).
  all: cbn [length Nat.add Nat.eqb negb].
  all: try reflexivity.
  all: change (lower 69 =? ch "e") with true; cbv beta iota.
  all: try (span_step; cbv beta iota).
  all: destruct ds; [done|]; reflexivity.
Qed.

Lemma decimal_of_shape (s : bool) (ip : str) (f : option str)
    (ex : option (bool * str)) (text : str) (c : N) (e : Z) :
  text = sign_text s ++ ip ++ frac_text f ++ exp_text ex ->
  all_digits ip -> ip <> [] ->
  (forall fp, f = Some fp -> all_digits fp) ->
  (forall neg ds, ex = Some (neg, ds) -> all_digits ds /\ ds <> []) ->
  int_of_digits (ip ++ default [] f) = Z.of_N c ->
  exp_value ex - Z.of_nat (length (default [] f)) = e ->
  decimal_of_str text = Ok (Finite s c e).
Proof.
  intros -> Hip Hne Hf He Hc <-.
  rewrite (decimal_of_number s ip f ex Hip Hne Hf He), Hc.
  by rewrite N2Z.id.
Qed.

Lemma exp_shape (x : Z) :
  x <> 0 ->
  exists ex, T "E" ++ (if 0 <=? x then T "+" else []) ++ int_repr x = exp_text ex
             /\ exp_value ex = x
             /\ (forall neg ds, ex = Some (neg, ds) -> all_digits ds /\ ds <> []).
Proof.
  intros Hx. destruct x as [|p|p]; [done|..].
  - exists (Some (false, int_repr (Z.pos p))). split; [reflexivity|]. split.
    + cbn [exp_value]. by apply int_of_digits_int_repr.
    + intros neg ds [= <- <-]. split; [by apply int_repr_digits|apply int_repr_nonempty].
  - exists (Some (true, int_repr (Z.pos p))). split; [reflexivity|]. split.
    + cbn [exp_value]. rewrite int_of_digits_int_repr by lia. lia.
    + intros neg ds [= <- <-]. split; [by apply int_repr_digits|apply int_repr_nonempty].
Qed.

Lemma all_digits_zeros n : all_digits (replicate n 48).
Proof. apply Forall_replicate. lia. Qed.

Lemma decimal_of_str_finite (s : bool) (c : N) (e : Z) :
  decimal_of_str (decimal_str (Finite s c e)) = Ok (Finite s c e).
Proof.
  pose proof (digits_all_digits c) as Hds.
  pose proof (digits_nonempty c) as Hne.
  pose proof (int_of_digits_digits c) as Hval.
  unfold decimal_str; cbv zeta.
  set (ds := digits c) in *.
  assert (Hlen : 1 <= Z.of_nat (length ds)) by (destruct ds; [done|cbn [length]; lia]).
  set (len := Z.of_nat (length ds)) in *.
  set (L := e + len).
  destruct ((e <=? 0) && (-6 <? L)) eqn:Hcase; cbv beta iota.
  - (* positional notation *)
    apply andb_true_iff in Hcase as [He HL].
    apply Z.leb_le in He. apply Z.ltb_lt in HL.
    rewrite Z.eqb_refl.
    destruct (L <=? 0) eqn:HL0.
    + apply Z.leb_le in HL0.
      apply (decimal_of_shape s [48] (Some (replicate (Z.to_nat (- L)) 48 ++ ds)) None).
      * reflexivity.
      * repeat constructor; lia.
      * done.
      * intros fp Hfp; injection Hfp as Hfp; subst fp. apply Forall_app_2; [apply all_digits_zeros|done].
      * done.
      * cbn [default from_option id]. change ([48] ++ ?x) with (replicate 1 48 ++ x).
        by rewrite !int_of_digits_zeros.
      * cbn [exp_value default from_option id]. rewrite length_app, length_replicate.
        subst L len. lia.
    + apply Z.leb_gt in HL0.
      destruct (len <=? L) eqn:HlenL.
      * apply Z.leb_le in HlenL.
        replace (Z.to_nat (L - len)) with 0%nat by (subst L; lia).
        apply (decimal_of_shape s ds None None); try done.
        -- cbn [replicate]. by rewrite !app_nil_r.
        -- cbn [default from_option id]. by rewrite app_nil_r.
        -- cbn. subst L. lia.
      * apply Z.leb_gt in HlenL.
        apply (decimal_of_shape s (take (Z.to_nat L) ds)
                 (Some (drop (Z.to_nat L) ds)) None).
        -- reflexivity.
        -- by apply Forall_take.
        -- intros Hnil. apply (f_equal length) in Hnil.
           rewrite length_take in Hnil. cbn in Hnil. subst len. lia.
        -- intros fp Hfp; injection Hfp as Hfp; subst fp. by apply Forall_drop.
        -- done.
        -- cbn [default from_option id]. by rewrite take_drop.
        -- cbn [exp_value default from_option id]. rewrite length_drop. subst L len. lia.
  - (* scientific notation *)
    assert (HL1 : L - 1 <> 0).
    { apply andb_false_iff in Hcase. rewrite Z.leb_gt, Z.ltb_ge in Hcase.
      subst L. lia. }
    replace (L =? 1) with false by (symmetry; apply Z.eqb_neq; lia).
    change (1 <=? 0) with false. cbv beta iota.
    destruct (exp_shape (L - 1) HL1) as (ex & Hex & Hexv & Hexd).
    rewrite Hex.
    destruct (len <=? 1) eqn:Hlen1.
    + apply Z.leb_le in Hlen1.
      replace (Z.to_nat (1 - len)) with 0%nat by lia.
      apply (decimal_of_shape s ds None ex); try done.
      * cbn [replicate frac_text]. by rewrite !app_nil_r.
      * cbn [default from_option id]. by rewrite app_nil_r.
      * cbn [default from_option id length]. rewrite Hexv. subst L. lia.
    + apply Z.leb_gt in Hlen1.
      apply (decimal_of_shape s (take (Z.to_nat 1) ds)
               (Some (drop (Z.to_nat 1) ds)) ex).
      * reflexivity.
      * by apply Forall_take.
      * intros Hnil. apply (f_equal length) in Hnil.
        rewrite length_take in Hnil. cbn in Hnil. subst len. lia.
      * intros fp Hfp; injection Hfp as Hfp; subst fp. by apply Forall_drop.
      * done.
      * cbn [default from_option id]. by rewrite take_drop.
      * cbn [default from_option id]. rewrite Hexv, length_drop. subst L len. lia.
Qed.

Lemma map_lower_digits (ds : str) : all_digits ds -> map lower ds = ds.
Proof.
  induction 1 as [|c ds Hc _ IH]; [done|]. cbn [map]. rewrite IH.
  unfold lower. by repeat settle_if.
Qed.

Lemma forallb_is_digit (ds : str) : all_digits ds -> forallb is_digit ds = true.
Proof.
  induction 1 as [|c ds Hc _ IH]; [done|]. cbn [forallb]. rewrite IH.
  rewrite andb_true_r. unfold is_digit. zbool.
Qed.

Lemma decimal_of_str_nan (s signaling : bool) (ds : str) :
  all_digits ds ->
  decimal_of_str (sign_text s ++ (if signaling then T "sNaN" else T "NaN") ++ ds)
  = Ok (NaN s signaling (Z.to_N (int_of_digits ds))).
Proof.
  intros Hds. unfold decimal_of_str.
  destruct s, signaling; cbn [sign_text];
    repeat match goal with
    | |- context [T ?x] => let v := eval vm_compute in (T x) in change (T x) with v
    end;
    cbn [app span is_digit Z.leb Z.compare Pos.compare Pos.compare_cont andb
         length Nat.add Nat.eqb negb map lower];
    cbv beta iota.
  all: change (78 + 32) with 110; cbv beta iota; cbn [firstn skipn].
  all: rewrite (map_lower_digits _ Hds), take_0, !drop_0, (forallb_is_digit _ Hds).
  all: unfold str_eqb.
  all: rewrite !bool_decide_eq_false_2 by discriminate.
  all: rewrite bool_decide_eq_true_2 by reflexivity.
  all: reflexivity.
Qed.

Lemma decimal_of_str_str (d : decimal) : decimal_of_str (decimal_str d) = Ok d.
Proof.
  destruct d as [s c e|s|s signaling p].
  - apply decimal_of_str_finite.
  - by destruct s.
  - unfold decimal_str.
    change (if s then T "-" else []) with (sign_text s).
    destruct (p =? 0)%N eqn:Hp.
    + apply N.eqb_eq in Hp. subst p.
      exact (decimal_of_str_nan s signaling [] ltac:(constructor)).
    + pose proof (decimal_of_str_nan s signaling (digits p)
                    (digits_all_digits p)) as Hnan.
      rewrite int_of_digits_digits, N2Z.id in Hnan. exact Hnan.
Qed.

Section Defaults.
Context `{ExternalCodecs}.

Lemma decoder_bytes :
  _decoders module_registry !! T "bytes"
  = Some (fun o => b <- encode_utf8 o ;; Ok (VBytes b)).
Proof. reflexivity. Qed.

Lemma decoder_decimal : _decoders module_registry !! T "decimal" = Some Decimal.
Proof. reflexivity. Qed.

Lemma decoder_uuid : _decoders module_registry !! T "uuid" = Some UUID.
Proof. reflexivity. Qed.

Lemma encoder_decimal :
  _encoders module_registry !! Class_ "decimal.Decimal" = Some (T "decimal", str_).
Proof. reflexivity. Qed.

Lemma decoder_date :
  _decoders module_registry !! T "date"
  = Some (fun o => d <- fromisoformat_datetime o ;;
                   Ok (VObject (PDate (datetime_date d)) None)).
Proof. reflexivity. Qed.

Lemma decoder_datetime :
  _decoders module_registry !! T "datetime"
  = Some (fun o => d <- fromisoformat_datetime o ;;
                   Ok (VObject (PDatetime d) None)).
Proof. reflexivity. Qed.

(** X12: the "bytes" decoder inverts UTF-8 decoding: for bytes [b] that
    decode to text [s], the envelope with marker "bytes" and payload [s] is
    decoded to [b], by the hook and by [loads]; the encoder has no
    counterpart, [dumps] of bytes raises TypeError. *)
Theorem bytes_marker_inverts_utf8 (b : bytes) (s : str) :
  UTF8.decode b = Some s ->
  object_hook module_registry
    [(T "__type__", VStr (T "bytes")); (T "__value__", VStr s)]
  = Ok (VBytes b)
  /\ (Forall plain s ->
      loads_ module_registry (IStr (envelope_text (T "bytes") s)) = Ok (VBytes b))
  /\ dumps (VBytes b)
     = Raise (TypeError "Object of type bytes is not JSON serializable").
Proof.
  intros Hb%utf8_encode_decode.
  assert (Hhook : object_hook module_registry
            [(T "__type__", VStr (T "bytes")); (T "__value__", VStr s)]
          = Ok (VBytes b)).
  { rewrite (object_hook_registered _ _ _ _ decoder_bytes).
    cbn [encode_utf8]. by rewrite Hb. }
  split; [exact Hhook|]. split; [|reflexivity].
  intros Hs. by rewrite envelope_hook_called by (done || by apply plain_literal).
Qed.

(** X13: the entry registered for decimals round-trips: for every decimal,
    finite or special, the registered decoder [Decimal] applied to what the
    registered encoder [str] returns is that decimal, and [loads] of the
    envelope carrying that text under the marker "decimal" returns it. *)
Theorem decimal_entry_round_trip (d : decimal) :
  _encoders module_registry !! type_of (VObject (PDecimal d) None)
    = Some (T "decimal", str_)
  /\ _decoders module_registry !! T "decimal" = Some Decimal
  /\ (payload <- str_ (VObject (PDecimal d) None) ;; Decimal payload)
     = Ok (VObject (PDecimal d) None)
  /\ loads_ module_registry (IStr (envelope_text (T "decimal") (decimal_str d)))
     = Ok (VObject (PDecimal d) None).
Proof.
  split; [reflexivity|]. split; [reflexivity|].
  assert (Hd : Decimal (VStr (decimal_str d)) = Ok (VObject (PDecimal d) None)).
  { cbn [Decimal]. by rewrite decimal_of_str_str. }
  split; [exact Hd|].
  rewrite envelope_hook_called
    by first [by apply plain_literal | apply plain_decimal_str].
  by rewrite (object_hook_registered _ _ _ _ decoder_decimal).
Qed.

(** X14: the entry registered for UUIDs round-trips: for every 128-bit
    UUID the registered encoder returns the one-key payload holding its 32
    hex digits, and the registered decoder, alone or through the hook on the
    envelope with marker "uuid", rebuilds the UUID from it. *)
Theorem uuid_entry_round_trip (u : uuid) :
  0 <= uuid_int u < 2 ^ 128 ->
  exists encoder : EncoderT,
    _encoders module_registry !! type_of (VObject (PUUID u) None)
      = Some (T "uuid", encoder)
    /\ encoder (VObject (PUUID u) None)
       = Ok (VDict [(T "hex", VStr (uuid_hex u))])
    /\ _decoders module_registry !! T "uuid" = Some UUID
    /\ (payload <- encoder (VObject (PUUID u) None) ;; UUID payload)
       = Ok (VObject (PUUID u) None)
    /\ object_hook module_registry
         [(T "__type__", VStr (T "uuid"));
          (T "__value__", VDict [(T "hex", VStr (uuid_hex u))])]
       = Ok (VObject (PUUID u) None).
Proof.
  intros Hu. eexists. split; [reflexivity|]. split; [reflexivity|].
  split; [reflexivity|]. cbn [bind].
  split; [by apply UUID_of_hex|].
  rewrite (object_hook_registered _ _ _ _ decoder_uuid). by apply UUID_of_hex.
Qed.

(** X15: the "date" decoder accepts exactly the payloads that the
    "datetime" decoder accepts and returns the date part of its result: on
    every payload the hook's outcome for the marker "date" is that for the
    marker "datetime" with the time dropped, or the same error. *)
Theorem date_decoder_keeps_date_part (v : value) :
  object_hook module_registry [(T "__type__", VStr (T "date")); (T "__value__", v)]
  = date_of_decoded
      (object_hook module_registry
         [(T "__type__", VStr (T "datetime")); (T "__value__", v)]).
Proof.
  rewrite (object_hook_registered _ _ v _ decoder_date).
  rewrite (object_hook_registered _ _ v _ decoder_datetime).
  by destruct (fromisoformat_datetime v).
Qed.

(** X16: with the module's registrations, the markers that have a decoder
    are bytes, base64, datetime, date, time, decimal and uuid; [loads] of an
    envelope text with any other marker raises the Unsupported-type
    ValueError carrying the envelope. *)
Theorem other_markers_rejected (m x : str) :
  Forall plain m -> Forall plain x ->
  m ∉ [T "bytes"; T "base64"; T "datetime"; T "date"; T "time";
       T "decimal"; T "uuid"] ->
  _decoders module_registry !! m = None
  /\ loads_ module_registry (IStr (envelope_text m x))
     = Raise (ValueError
         [VStr (T "Unsupported type"); VType;
          VDict [(T "__type__", VStr m); (T "__value__", VStr x)]]).
Proof.
  intros Hm Hx Hnot.
  assert (Hnone : _decoders module_registry !! m = None).
  { apply eq_None_not_Some. by rewrite module_markers. }
  split; [exact Hnone|].
  rewrite (envelope_hook_called _ _ _ Hm Hx), object_hook_envelope.
  unfold DecoderT in *. by rewrite Hnone.
Qed.

End Defaults.

Lemma uuid_entry_round_trip_witness :
  object_hook (@module_registry no_external_codecs)
    [(T "__type__", VStr (T "uuid"));
     (T "__value__",
      VDict [(T "hex", VStr (T "12345678123456781234567812345678"))])]
  = Ok (VObject (PUUID (mk_uuid 0x12345678123456781234567812345678)) None).
Proof.
  destruct (@uuid_entry_round_trip no_external_codecs
              (mk_uuid 0x12345678123456781234567812345678))
    as (encoder & _ & _ & _ & _ & Hhook).
  - cbn [uuid_int]. lia.
  - exact Hhook.
Defined.

Lemma bytes_marker_inverts_utf8_witness :
  object_hook (@module_registry no_external_codecs)
    [(T "__type__", VStr (T "bytes")); (T "__value__", VStr [233; 0x20AC])]
  = Ok (VBytes [0xC3; 0xA9; 0xE2; 0x82; 0xAC]).
Proof.
  exact (proj1 (@bytes_marker_inverts_utf8 no_external_codecs
                  [0xC3; 0xA9; 0xE2; 0x82; 0xAC] [233; 0x20AC] eq_refl)).
Defined.

Lemma other_markers_rejected_witness :
  loads_ (@module_registry no_external_codecs)
    (IStr (Q "{'__type__': 'set', '__value__': 'abc'}"))
  = Raise (ValueError
      [VStr (T "Unsupported type"); VType;
       VDict [(T "__type__", VStr (T "set")); (T "__value__", VStr (T "abc"))]]).
Proof.
  refine (proj2 (@other_markers_rejected no_external_codecs
                   (T "set") (T "abc") _ _ _)); try by apply plain_literal.
  intros Hin. apply mem_spec in Hin. vm_compute in Hin. discriminate Hin.
Defined.
